(** * TimelessTitleCard: the title-card builder of the Timeless card type

    A shallow embedding of [Timeless/card_types/TimelessTitleCard.py].

    Python [str] values are kept as [string]s holding their UTF-8 encoding:
    concatenation, [split] on a newline and [splitlines] commute with that
    encoding.  Python [int] is unbounded and is [Z]; Python [float] is IEEE
    binary64 and is [float].  The external collaborators of the card (the
    ImageMagick interface, pathlib, the BaseCardType parent class) are not
    part of the module: they are gathered in the [Host] record and every
    operation of the card is parametrised by it. *)

From Stdlib Require Import ZArith List Sorted String Ascii Bool Lia.
From Stdlib Require Import Floats DecimalString.
Import ListNotations.

Local Open Scope string_scope.
Local Open Scope Z_scope.

(** ** Python strings *)

Module PyStr.

(** The double-quote character, which the f-strings of the card wrap
    around every path, colour and text. *)
Definition dq : string := String "034"%char EmptyString.

(** The backslash. *)
Definition bs : string := String "092"%char EmptyString.

(** The line feed. *)
Definition nl : string := String "010"%char EmptyString.

(** [str(n)] for an [int]. *)
Definition str_of_int (n : Z) : string :=
  NilZero.string_of_int (Z.to_int n).

(** [format(n, '+')]: the sign is always printed. *)
Definition format_plus (n : Z) : string :=
  if n <? 0 then str_of_int n else "+" ++ str_of_int n.

(** [s.split('\n')]; [cur] is the segment under construction. *)
Fixpoint split_nl_aux (cur : string) (s : string) : list string :=
  match s with
  | EmptyString => [cur]
  | String c rest =>
      if Ascii.eqb c "010"%char
      then cur :: split_nl_aux EmptyString rest
      else split_nl_aux (cur ++ String c EmptyString) rest
  end.

Definition split_nl (s : string) : list string :=
  split_nl_aux EmptyString s.

(** [s.splitlines()].  The line boundaries of [str.splitlines] are
    LF, CR, CRLF, VT, FF, FS, GS, RS, NEL (U+0085), LS (U+2028) and
    PS (U+2029); the last three are matched on their UTF-8 encodings.
    A boundary closes the current line, and the text after the last
    boundary is a line only when it is not empty. *)
Fixpoint splitlines_aux (started : bool) (cur : string) (s : string)
  : list string :=
  match s with
  | EmptyString => if started then [cur] else []
  | String c rest =>
      let close k := cur :: splitlines_aux false EmptyString k in
      let keep := splitlines_aux true (cur ++ String c EmptyString) rest in
      match c, rest with
      | "013"%char, String "010"%char rest' => close rest'
      | "194"%char, String "133"%char rest' => close rest'
      | "226"%char, String "128"%char (String "168"%char rest') =>
          close rest'
      | "226"%char, String "128"%char (String "169"%char rest') =>
          close rest'
      | _, _ =>
          if (Ascii.eqb c "010" || Ascii.eqb c "011" || Ascii.eqb c "012"
              || Ascii.eqb c "013" || Ascii.eqb c "028" || Ascii.eqb c "029"
              || Ascii.eqb c "030")%char%bool
          then close rest
          else keep
      end
  end.

Definition splitlines (s : string) : list string :=
  splitlines_aux false EmptyString s.

(** [needle in hay]. *)
Definition contains (hay needle : string) : Prop :=
  exists pre post, hay = pre ++ needle ++ post.

End PyStr.

Import PyStr.

(** ** External collaborators *)

(** A [pathlib.Path], kept as its [str()]. *)
Definition Path := string.

(** [modules.BaseCardType.ImageMagickCommands]: a list of command
    fragments. *)
Definition ImageMagickCommands := list string.

(** The result of a text measurement: width and height. *)
Record Dimensions := { width : Z; height : Z }.

(** The module-level named tuple [BoxCoordinates]. *)
Record BoxCoordinates := { x0 : Z; y0 : Z; x1 : Z; y1 : Z }.

(** What the card asks of the ImageMagick interface, in the order of the
    requests. *)
Inductive Event :=
| GetTextDimensions (text_command : ImageMagickCommands)
                    (interline_spacing : Z) (line_count : nat)
| Run (command : ImageMagickCommands).

(** Everything the module takes from outside.  The answer of
    [get_text_dimensions] may depend on all earlier requests: nothing is
    assumed about the renderer being deterministic. *)
Record Host := {
  (* pathlib and the location of the package *)
  REF_DIRECTORY : Path;                     (* Path(__file__).parent / 'ref' *)
  path_div : Path -> string -> Path;        (* p / 'rel' *)
  path_resolve : Path -> Path;              (* p.resolve() *)
  (* formatting of a float inside an f-string *)
  float_str : float -> string;
  (* self.image_magick *)
  escape_chars : string -> string;
  get_text_dimensions :
    list Event -> ImageMagickCommands -> Z -> nat -> Dimensions;
  (* members inherited from BaseCardType *)
  resize_and_style : bool -> bool -> ImageMagickCommands;
  add_overlay_mask : Path -> ImageMagickCommands;
  resize_output : ImageMagickCommands
}.

(** ** Class constants *)

Section Constants.
Variable h : Host.

Definition TITLE_FONT : string :=
  path_resolve h (path_div h (REF_DIRECTORY h) "fonts/Timeless-Main.otf").
Definition TITLE_FONT_INFILL : Path :=
  path_div h (REF_DIRECTORY h) "fonts/Timeless-Infill.otf".
Definition TITLE_FONT_GEARS : Path :=
  path_div h (REF_DIRECTORY h) "fonts/Timeless-Gears.otf".
Definition EPISODE_TEXT_FONT : Path :=
  path_div h (REF_DIRECTORY h) "fonts/Timeless-Main.otf".
Definition EPISODE_TEXT_FONT_INFILL : Path :=
  path_div h (REF_DIRECTORY h) "fonts/Timeless-Infill.otf".
Definition EPISODE_TEXT_FONT_GEARS : Path :=
  path_div h (REF_DIRECTORY h) "fonts/Timeless-Gears.otf".
Definition GRADIENT_IMAGE : Path :=
  path_div h (REF_DIRECTORY h) "overlays/gradient.png".
End Constants.

Definition DEFAULT_FONT_CASE : string := "source".
Definition TITLE_COLOR : string := "#FFFFFF".
Definition TITLE_COLOR_INFILL : string := "#000000".
Definition TITLE_COLOR_GEARS : string := "#000000".
Definition EPISODE_TEXT_FORMAT : string := "EPISODE {episode_number}".
Definition EPISODE_TEXT_COLOR : string := "#FFFFFF".
Definition EPISODE_TEXT_COLOR_INFILL : string := "#000000".
Definition EPISODE_TEXT_COLOR_GEARS : string := "#000000".
Definition ARCHIVE_NAME : string := "Timeless".
Definition USES_SEASON_TITLE : bool := true.

(** ** The card object *)

(** The keyword arguments of [__init__]. *)
Module Kwargs.
Record t := {
  source_file : Path;
  card_file : Path;
  title_text : string;
  season_text : string;
  episode_text : string;
  hide_season_text : bool;
  hide_episode_text : bool;
  font_file : string;
  font_color : string;
  font_size : float;
  font_interline_spacing : Z;
  font_vertical_shift : Z;
  episode_text_color : string;
  blur : bool;
  grayscale : bool
}.

(** The arguments without a default, the others at their default. *)
Definition defaults (h : Host) (source card : Path)
           (title season episode : string) : t :=
  {| source_file := source; card_file := card;
     title_text := title; season_text := season; episode_text := episode;
     hide_season_text := false; hide_episode_text := false;
     font_file := TITLE_FONT h; font_color := TITLE_COLOR;
     font_size := 1%float;
     font_interline_spacing := 0; font_vertical_shift := 0;
     episode_text_color := EPISODE_TEXT_COLOR;
     blur := false; grayscale := false |}.
End Kwargs.

(** The attributes of an instance: [blur] and [grayscale] are set by
    [BaseCardType.__init__], the others are the [__slots__] of the class. *)
Record TimelessTitleCard := {
  blur : bool;
  grayscale : bool;
  source_file : Path;
  output_file : Path;
  title_text : string;
  season_text : string;
  episode_text : string;
  hide_season_text : bool;
  hide_episode_text : bool;
  line_count : nat;
  font_file : string;
  font_color : string;
  font_size : float;
  font_interline_spacing : Z;
  font_vertical_shift : Z;
  episode_text_color : string;
  title_text_size : float;
  index_text_size : Z;
  y : Z;
  _title_text_dimensions : option Dimensions;
  _index_text_dimensions : option Dimensions;
  _title_coordinates : option BoxCoordinates;
  _index_coordinates : option BoxCoordinates
}.

(** [TimelessTitleCard.__init__]. *)
Definition init (h : Host) (kw : Kwargs.t) : TimelessTitleCard :=
  let font_interline_spacing := -50 + Kwargs.font_interline_spacing kw in
  let font_vertical_shift := Kwargs.font_vertical_shift kw in
  {| blur := Kwargs.blur kw;
     grayscale := Kwargs.grayscale kw;
     source_file := Kwargs.source_file kw;
     output_file := Kwargs.card_file kw;
     title_text := escape_chars h (Kwargs.title_text kw);
     season_text := escape_chars h (Kwargs.season_text kw);
     episode_text := escape_chars h (Kwargs.episode_text kw);
     hide_season_text := Kwargs.hide_season_text kw;
     hide_episode_text := Kwargs.hide_episode_text kw;
     line_count := List.length (split_nl (Kwargs.title_text kw));
     font_file := Kwargs.font_file kw;
     font_color := Kwargs.font_color kw;
     font_size := Kwargs.font_size kw;
     font_interline_spacing := font_interline_spacing;
     font_vertical_shift := font_vertical_shift;
     episode_text_color := Kwargs.episode_text_color kw;
     title_text_size := (256 * Kwargs.font_size kw)%float;
     index_text_size := 60;
     y := 47 + font_vertical_shift;
     _title_text_dimensions := None;
     _index_text_dimensions := None;
     _title_coordinates := None;
     _index_coordinates := None |}.

(** The assignment [self._title_text_dimensions = d]. *)
Definition set_title_text_dimensions (d : option Dimensions)
           (c : TimelessTitleCard) : TimelessTitleCard :=
  {| blur := blur c; grayscale := grayscale c;
     source_file := source_file c; output_file := output_file c;
     title_text := title_text c; season_text := season_text c;
     episode_text := episode_text c;
     hide_season_text := hide_season_text c;
     hide_episode_text := hide_episode_text c;
     line_count := line_count c;
     font_file := font_file c; font_color := font_color c;
     font_size := font_size c;
     font_interline_spacing := font_interline_spacing c;
     font_vertical_shift := font_vertical_shift c;
     episode_text_color := episode_text_color c;
     title_text_size := title_text_size c;
     index_text_size := index_text_size c;
     y := y c;
     _title_text_dimensions := d;
     _index_text_dimensions := _index_text_dimensions c;
     _title_coordinates := _title_coordinates c;
     _index_coordinates := _index_coordinates c |}.

(** ** State: the instance and the requests made so far *)

Record State := { self : TimelessTitleCard; events : list Event }.

(** A computation that may read and update the instance and talk to the
    ImageMagick interface. *)
Definition M (A : Type) : Type := State -> A * State.

Definition ret {A} (a : A) : M A := fun st => (a, st).

Definition bind {A B} (m : M A) (k : A -> M B) : M B :=
  fun st => let (a, st') := m st in k a st'.

Notation "x <- m ;; k" := (bind m (fun x => k))
  (at level 61, m at next level, right associativity).

Definition get_self : M TimelessTitleCard := fun st => (self st, st).

Definition put_self (c : TimelessTitleCard) : M unit :=
  fun st => (tt, {| self := c; events := events st |}).

(** [self.image_magick.get_text_dimensions(cmd, interline_spacing=..,
    line_count=..)]: the request is recorded, the host answers. *)
Definition image_magick_get_text_dimensions (h : Host)
           (cmd : ImageMagickCommands) (spacing : Z) (lines : nat)
  : M Dimensions :=
  fun st =>
    (get_text_dimensions h (events st) cmd spacing lines,
     {| self := self st;
        events := events st ++ [GetTextDimensions cmd spacing lines] |}).

(** [self.image_magick.run(cmd)]. *)
Definition image_magick_run (cmd : ImageMagickCommands) : M unit :=
  fun st => (tt, {| self := self st; events := events st ++ [Run cmd] |}).

(** ** The properties and methods of the class *)

Section Card.
Variable h : Host.

(** The property [title_text_commands]. *)
Definition title_text_commands (c : TimelessTitleCard)
  : ImageMagickCommands :=
  [ "-font " ++ dq ++ font_file c ++ dq;
    "-gravity south";
    "-pointsize " ++ float_str h (title_text_size c);
    "-kerning 0";
    "-interline-spacing " ++ str_of_int (font_interline_spacing c);
    "-background transparent";
    "-fill " ++ dq ++ font_color c ++ dq;
    "-annotate +0" ++ format_plus (y c) ++ " " ++ dq ++ title_text c ++ dq ].

(** The property [title_text_infill_commands]. *)
Definition title_text_infill_commands (c : TimelessTitleCard)
  : ImageMagickCommands :=
  [ "-font " ++ dq ++ TITLE_FONT_INFILL h ++ dq;
    "-gravity south";
    "-pointsize " ++ float_str h (title_text_size c);
    "-kerning 0";
    "-interline-spacing " ++ str_of_int (font_interline_spacing c);
    "-background transparent";
    "-fill " ++ dq ++ TITLE_COLOR_INFILL ++ dq;
    "-annotate +0" ++ format_plus (y c) ++ " " ++ dq ++ title_text c ++ dq ].

(** The property [title_text_gears_commands]. *)
Definition title_text_gears_commands (c : TimelessTitleCard)
  : ImageMagickCommands :=
  [ "-font " ++ dq ++ TITLE_FONT_GEARS h ++ dq;
    "-gravity south";
    "-pointsize " ++ float_str h (title_text_size c);
    "-kerning 0";
    "-interline-spacing " ++ str_of_int (font_interline_spacing c);
    "-background transparent";
    "-fill " ++ dq ++ TITLE_COLOR_GEARS ++ dq;
    "-annotate +0" ++ format_plus (y c) ++ " " ++ dq ++ title_text c ++ dq ].

(** The method [get_title_dimensions]: the measurement is requested
    only while [_title_text_dimensions] is [None], and its answer is
    stored there. *)
Definition get_title_dimensions : M Dimensions :=
  c <- get_self ;;
  match _title_text_dimensions c with
  | None =>
      d <- image_magick_get_text_dimensions h
             (title_text_commands c)
             (font_interline_spacing c)
             (List.length (splitlines (title_text c))) ;;
      _ <- put_self (set_title_text_dimensions (Some d) c) ;;
      ret d
  | Some d => ret d
  end.

(** The property [index_text_commands]. *)
Definition index_text_commands : M ImageMagickCommands :=
  c <- get_self ;;
  if hide_season_text c && hide_episode_text c then ret []
  else
    let index_text :=
      if hide_season_text c then episode_text c
      else if hide_episode_text c then season_text c
      else season_text c ++ " • " ++ episode_text c in
    d <- get_title_dimensions ;;
    let title_height := height d in
    c <- get_self ;;
    let index_offset := y c + title_height - 10 in
    ret [ "-font " ++ dq ++ EPISODE_TEXT_FONT h ++ dq;
          "-gravity south";
          "-pointsize " ++ str_of_int (index_text_size c);
          "-kerning 0";
          "-fill " ++ dq ++ episode_text_color c ++ dq;
          "-annotate +0" ++ format_plus index_offset
            ++ " " ++ dq ++ index_text ++ dq ].

(** The property [index_text_infill_commands]. *)
Definition index_text_infill_commands : M ImageMagickCommands :=
  c <- get_self ;;
  if hide_season_text c && hide_episode_text c then ret []
  else
    let index_text :=
      if hide_season_text c then episode_text c
      else if hide_episode_text c then season_text c
      else season_text c ++ " • " ++ episode_text c in
    d <- get_title_dimensions ;;
    let title_height := height d in
    c <- get_self ;;
    let index_offset := y c + title_height - 10 in
    ret [ "-font " ++ dq ++ EPISODE_TEXT_FONT_INFILL h ++ dq;
          "-gravity south";
          "-pointsize " ++ str_of_int (index_text_size c);
          "-kerning 0";
          "-fill " ++ dq ++ EPISODE_TEXT_COLOR_INFILL ++ dq;
          "-annotate +0" ++ format_plus index_offset
            ++ " " ++ dq ++ index_text ++ dq ].

(** The property [index_text_gears_commands]. *)
Definition index_text_gears_commands : M ImageMagickCommands :=
  c <- get_self ;;
  if hide_season_text c && hide_episode_text c then ret []
  else
    let index_text :=
      if hide_season_text c then episode_text c
      else if hide_episode_text c then season_text c
      else season_text c ++ " • " ++ episode_text c in
    d <- get_title_dimensions ;;
    let title_height := height d in
    c <- get_self ;;
    let index_offset := y c + title_height - 10 in
    ret [ "-font " ++ dq ++ EPISODE_TEXT_FONT_GEARS h ++ dq;
          "-gravity south";
          "-pointsize " ++ str_of_int (index_text_size c);
          "-kerning 0";
          "-fill " ++ dq ++ EPISODE_TEXT_COLOR_GEARS ++ dq;
          "-annotate +0" ++ format_plus index_offset
            ++ " " ++ dq ++ index_text ++ dq ].

(** The property [gradient_commands]. *)
Definition gradient_commands : ImageMagickCommands :=
  [ dq ++ path_resolve h (GRADIENT_IMAGE h) ++ dq;
    "-composite" ].

(** The method [create]: the elements of the list are evaluated from
    left to right, then the list is handed to [run]. *)
Definition create : M unit :=
  c <- get_self ;;
  let head := [ "convert"; dq ++ path_resolve h (source_file c) ++ dq ] in
  let styled := resize_and_style h (blur c) (grayscale c) in
  let gradient := gradient_commands in
  index_main <- index_text_commands ;;
  index_infill <- index_text_infill_commands ;;
  index_gears <- index_text_gears_commands ;;
  c <- get_self ;;
  let title_main := title_text_commands c in
  let title_infill := title_text_infill_commands c in
  let title_gears := title_text_gears_commands c in
  let mask := add_overlay_mask h (source_file c) in
  let resized := resize_output h in
  let tail := [ dq ++ path_resolve h (output_file c) ++ dq ] in
  image_magick_run
    (head ++ styled ++ gradient
     ++ index_main ++ index_infill ++ index_gears
     ++ title_main ++ title_infill ++ title_gears
     ++ mask ++ resized ++ tail)%list.

(** A card just constructed from its keyword arguments, before any
    request was made. *)
Definition fresh (kw : Kwargs.t) : State :=
  {| self := init h kw; events := [] |}.

End Card.

(** [is_custom_season_titles]. *)
Definition is_custom_season_titles (custom_episode_map : bool)
           (episode_text_format : string) : bool :=
  custom_episode_map
  || negb (String.eqb episode_text_format EPISODE_TEXT_FORMAT).

(** The measurement requests among a list of requests. *)
Definition measurements (l : list Event) : list Event :=
  filter (fun e => match e with GetTextDimensions _ _ _ => true
                              | Run _ => false end) l.

(** The command lists handed to [run] among a list of requests. *)
Definition runs (l : list Event) : list ImageMagickCommands :=
  flat_map (fun e => match e with Run cmd => [cmd]
                                | GetTextDimensions _ _ _ => [] end) l.

(** ** Name resolution inside [is_custom_font] *)

Module PyNames.

Inductive PyExn :=
| NameError (name : string)
| OtherError (description : string).

Inductive Result (A : Type) :=
| Return (a : A)
| Raise (e : PyExn).
Arguments Return {A} a.
Arguments Raise {A} e.

(** The names the top-level statements of the module bind, in the order
    of the statements, after the names every module starts with.  The
    two imports under [if TYPE_CHECKING:] are bound only when that flag
    is true (it is false when the program runs). *)
Definition module_globals (type_checking : bool) : list string :=
  ([ "__name__"; "__doc__"; "__package__"; "__loader__"; "__spec__";
     "__file__"; "__cached__"; "__builtins__";
     "Path"; "namedtuple"; "Literal"; "Optional"; "TYPE_CHECKING";
     "root_validator"; "BaseCardTypeCustomFontAllText";
     "BaseCardType"; "ImageMagickCommands"; "Extra"; "CardDescription";
     "log"; "EpisodeInfo"; "SplitCharacteristics" ]
   ++ (if type_checking then [ "Preferences"; "Font" ] else [])
   ++ [ "BoxCoordinates"; "TimelessTitleCard" ])%list.

(** The names of the [builtins] module. *)
Definition builtins : list string :=
  [ "abs"; "aiter"; "all"; "anext"; "any"; "ascii"; "bin"; "bool";
    "breakpoint"; "bytearray"; "bytes"; "callable"; "chr"; "classmethod";
    "compile"; "complex"; "copyright"; "credits"; "delattr"; "dict";
    "dir"; "divmod"; "enumerate"; "eval"; "exec"; "exit"; "filter";
    "float"; "format"; "frozenset"; "getattr"; "globals"; "hasattr";
    "hash"; "help"; "hex"; "id"; "input"; "int"; "isinstance";
    "issubclass"; "iter"; "len"; "license"; "list"; "locals"; "map";
    "max"; "memoryview"; "min"; "next"; "object"; "oct"; "open"; "ord";
    "pow"; "print"; "property"; "quit"; "range"; "repr"; "reversed";
    "round"; "set"; "setattr"; "slice"; "sorted"; "staticmethod"; "str";
    "sum"; "super"; "tuple"; "type"; "vars"; "zip";
    "__build_class__"; "__debug__"; "__doc__"; "__import__";
    "__loader__"; "__name__"; "__package__"; "__spec__";
    "Ellipsis"; "False"; "None"; "NotImplemented"; "True";
    "ArithmeticError"; "AssertionError"; "AttributeError";
    "BaseException"; "BaseExceptionGroup"; "BlockingIOError";
    "BrokenPipeError"; "BufferError"; "BytesWarning";
    "ChildProcessError"; "ConnectionAbortedError"; "ConnectionError";
    "ConnectionRefusedError"; "ConnectionResetError";
    "DeprecationWarning"; "EOFError"; "EncodingWarning";
    "EnvironmentError"; "Exception"; "ExceptionGroup";
    "FileExistsError"; "FileNotFoundError"; "FloatingPointError";
    "FutureWarning"; "GeneratorExit"; "IOError"; "ImportError";
    "ImportWarning"; "IndentationError"; "IndexError";
    "InterruptedError"; "IsADirectoryError"; "KeyError";
    "KeyboardInterrupt"; "LookupError"; "MemoryError";
    "ModuleNotFoundError"; "NameError"; "NotADirectoryError";
    "NotImplementedError"; "OSError"; "OverflowError";
    "PendingDeprecationWarning"; "PermissionError";
    "ProcessLookupError"; "RecursionError"; "ReferenceError";
    "ResourceWarning"; "RuntimeError"; "RuntimeWarning";
    "StopAsyncIteration"; "StopIteration"; "SyntaxError";
    "SyntaxWarning"; "SystemError"; "SystemExit"; "TabError";
    "TimeoutError"; "TypeError"; "UnboundLocalError";
    "UnicodeDecodeError"; "UnicodeEncodeError"; "UnicodeError";
    "UnicodeTranslateError"; "UnicodeWarning"; "UserWarning";
    "ValueError"; "Warning"; "ZeroDivisionError" ].

Definition bound (name : string) (names : list string) : bool :=
  existsb (String.eqb name) names.

Section Lookup.
(** The objects of the running program, the object a bound global or
    builtin name refers to, and the call [obj.attr(font)]. *)
Variables (PyObject Font Extras : Type).
Variable value_of : string -> PyObject.
Variable call_attr : PyObject -> string -> Font -> Result bool.
Variable type_checking : bool.

(** Loading a name that is not local to the function: the module's
    globals first, then the builtins, else [NameError]. *)
Definition load_global (name : string) : Result PyObject :=
  if bound name (module_globals type_checking)
  then Return (value_of name)
  else if bound name builtins
  then Return (value_of name)
  else Raise (NameError name).

(** The static method [is_custom_font]; its locals are [font] and
    [extras]. *)
Definition is_custom_font (font : Font) (extras : Extras)
  : Result bool :=
  match load_global "FontPreviewTitleCard" with
  | Return cls => call_attr cls "_is_custom_font" font
  | Raise e => Raise e
  end.
End Lookup.

End PyNames.

(** ** The fallback season title *)

Section SeasonText.
(** [modules.EpisodeInfo2.EpisodeInfo] and its attribute
    [season_number]. *)
Variable EpisodeInfo : Type.
Variable season_number : EpisodeInfo -> Z.

(** The static method [SEASON_TEXT_FORMATTER].  The second string is a
    plain literal in the source, not an f-string. *)
Definition SEASON_TEXT_FORMATTER (episode_info : EpisodeInfo) : string :=
  if season_number episode_info =? 0 then "SPECIALS"
  else "SEASON {season_number}".
End SeasonText.

(** ** Reading the card, its requests and its command

    The definitions from here to the sample host are not in the module:
    the properties below are stated with them. *)

(** The annotate fragment of a text layer: the vertical offset with its
    sign, then the text between double quotes. *)
Definition annotate (offset : Z) (text : string) : string :=
  "-annotate +0" ++ format_plus offset ++ " " ++ dq ++ text ++ dq.

Inductive FontLayer := Main | Infill | Gears.

(** The groups of fragments of the command, as [create] lays them out. *)
Inductive Part :=
| Convert
| Source
| ResizeAndStyle
| Gradient
| IndexText (layer : FontLayer)
| TitleText (layer : FontLayer)
| OverlayMask
| ResizeOutput
| Output.

Definition layer_rank (l : FontLayer) : nat :=
  match l with Main => 0 | Infill => 1 | Gears => 2 end.

(** The place of a group in the pipeline. *)
Definition rank (p : Part) : nat :=
  match p with
  | Convert => 0
  | Source => 1
  | ResizeAndStyle => 2
  | Gradient => 3
  | IndexText l => 4 + layer_rank l
  | TitleText l => 7 + layer_rank l
  | OverlayMask => 10
  | ResizeOutput => 11
  | Output => 12
  end.

Section Reading.
Variable h : Host.

(** The request [get_title_dimensions] makes when nothing is cached. *)
Definition title_request (c : TimelessTitleCard) : Event :=
  GetTextDimensions (title_text_commands h c)
                    (font_interline_spacing c)
                    (List.length (splitlines (title_text c))).

(** The dimensions [get_title_dimensions] returns from a state. *)
Definition measured (st : State) : Dimensions :=
  fst (get_title_dimensions h st).

(** What an index layer with the given font and fill looks like when
    the title measures [d] and the text to draw is [text]. *)
Definition index_layer (font fill : string) (c : TimelessTitleCard)
           (d : Dimensions) (text : string) : ImageMagickCommands :=
  [ "-font " ++ dq ++ font ++ dq;
    "-gravity south";
    "-pointsize " ++ str_of_int (index_text_size c);
    "-kerning 0";
    "-fill " ++ dq ++ fill ++ dq;
    annotate (y c + height d - 10) text ].

(** The text of the index layers when at least one of the two texts is
    shown. *)
Definition index_text (c : TimelessTitleCard) : string :=
  if hide_season_text c then episode_text c
  else if hide_episode_text c then season_text c
  else season_text c ++ " • " ++ episode_text c.

Definition all_hidden (c : TimelessTitleCard) : bool :=
  hide_season_text c && hide_episode_text c.

(** The state after the three index properties were read. *)
Definition after_index (st : State) : State :=
  if all_hidden (self st) then st else snd (get_title_dimensions h st).

(** The groups of the command of [create] started in [st], each with
    its fragments. *)
Definition parts (st : State) : list (Part * ImageMagickCommands) :=
  let c := self st in
  let index font fill :=
    if all_hidden c then []
    else index_layer font fill c (measured st) (index_text c) in
  [ (Convert, [ "convert" ]);
    (Source, [ dq ++ path_resolve h (source_file c) ++ dq ]);
    (ResizeAndStyle, resize_and_style h (blur c) (grayscale c));
    (Gradient, gradient_commands h);
    (IndexText Main, index (EPISODE_TEXT_FONT h) (episode_text_color c));
    (IndexText Infill,
      index (EPISODE_TEXT_FONT_INFILL h) EPISODE_TEXT_COLOR_INFILL);
    (IndexText Gears,
      index (EPISODE_TEXT_FONT_GEARS h) EPISODE_TEXT_COLOR_GEARS);
    (TitleText Main, title_text_commands h c);
    (TitleText Infill, title_text_infill_commands h c);
    (TitleText Gears, title_text_gears_commands h c);
    (OverlayMask, add_overlay_mask h (source_file c));
    (ResizeOutput, resize_output h);
    (Output, [ dq ++ path_resolve h (output_file c) ++ dq ]) ].

(** Every fragment with the group it belongs to. *)
Definition labelled (st : State) : list (Part * string) :=
  flat_map (fun p => map (pair (fst p)) (snd p)) (parts st).

(** The three index properties read one after the other, as [create]
    reads them. *)
Definition index_reads (st : State)
  : (ImageMagickCommands * ImageMagickCommands * ImageMagickCommands)
    * State :=
  let r1 := index_text_commands h st in
  let r2 := index_text_infill_commands h (snd r1) in
  let r3 := index_text_gears_commands h (snd r2) in
  ((fst r1, fst r2, fst r3), snd r3).

(** The three index properties, each read on its own. *)
Definition index_properties : list (M ImageMagickCommands) :=
  [ index_text_commands h; index_text_infill_commands h;
    index_text_gears_commands h ].

(** The three title properties. *)
Definition title_properties
  : list (TimelessTitleCard -> ImageMagickCommands) :=
  [ title_text_commands h; title_text_infill_commands h;
    title_text_gears_commands h ].

End Reading.

(** The group of every fragment of a list of groups. *)
Definition group_labels (segs : list (Part * ImageMagickCommands))
  : list Part :=
  map fst (flat_map (fun p => map (pair (fst p)) (snd p)) segs).

(** The groups of [create], in the order of its list. *)
Definition pipeline : list Part :=
  [ Convert; Source; ResizeAndStyle; Gradient;
    IndexText Main; IndexText Infill; IndexText Gears;
    TitleText Main; TitleText Infill; TitleText Gears;
    OverlayMask; ResizeOutput; Output ].

(** The line counts of the measurement requests among a list of
    requests. *)
Definition requested_line_counts (l : list Event) : list nat :=
  flat_map (fun e => match e with
                     | GetTextDimensions _ _ lines => [lines]
                     | Run _ => []
                     end) l.

(** The assignment [self.line_count = n]. *)
Definition set_line_count (n : nat) (c : TimelessTitleCard)
  : TimelessTitleCard :=
  {| blur := blur c; grayscale := grayscale c;
     source_file := source_file c; output_file := output_file c;
     title_text := title_text c; season_text := season_text c;
     episode_text := episode_text c;
     hide_season_text := hide_season_text c;
     hide_episode_text := hide_episode_text c;
     line_count := n;
     font_file := font_file c; font_color := font_color c;
     font_size := font_size c;
     font_interline_spacing := font_interline_spacing c;
     font_vertical_shift := font_vertical_shift c;
     episode_text_color := episode_text_color c;
     title_text_size := title_text_size c;
     index_text_size := index_text_size c;
     y := y c;
     _title_text_dimensions := _title_text_dimensions c;
     _index_text_dimensions := _index_text_dimensions c;
     _title_coordinates := _title_coordinates c;
     _index_coordinates := _index_coordinates c |}.

Definition with_line_count (n : nat) (st : State) : State :=
  {| self := set_line_count n (self st); events := events st |}.

(** A title layer with the given font and fill, written from the keyword
    arguments of the constructor. *)
Definition title_layer (h : Host) (kw : Kwargs.t) (font fill : string)
  : ImageMagickCommands :=
  [ "-font " ++ dq ++ font ++ dq;
    "-gravity south";
    "-pointsize " ++ float_str h (256 * Kwargs.font_size kw)%float;
    "-kerning 0";
    "-interline-spacing "
      ++ str_of_int (-50 + Kwargs.font_interline_spacing kw);
    "-background transparent";
    "-fill " ++ dq ++ fill ++ dq;
    annotate (47 + Kwargs.font_vertical_shift kw)
             (escape_chars h (Kwargs.title_text kw)) ].

(** The characters [str] of an [int] is made of. *)
Definition sign_and_digits : string := "-0123456789".

(** The command of the last [run] of a build started in [st]. *)
Definition create_command (h : Host) (st : State) : ImageMagickCommands :=
  last (runs (events (snd (create h st)))) [].

(** The measurement request a build started in [st] has to make: one when
    an index text is drawn and the title dimensions are not cached yet,
    none otherwise. *)
Definition build_measurement (h : Host) (st : State) : list Event :=
  if all_hidden (self st) then []
  else match _title_text_dimensions (self st) with
       | None => [title_request h (self st)]
       | Some _ => []
       end.

(** The number of line feeds of a text. *)
Fixpoint count_lf (s : string) : nat :=
  match s with
  | EmptyString => 0%nat
  | String c rest =>
      if Ascii.eqb c "010"%char then S (count_lf rest) else count_lf rest
  end.

(** Whether the text ends inside a line: it is not empty and its last
    character is no line feed.  [started] tells whether a line is already
    under way when [s] begins. *)
Fixpoint open_line (started : bool) (s : string) : bool :=
  match s with
  | EmptyString => started
  | String c rest =>
      if Ascii.eqb c "010"%char then open_line false rest
      else open_line true rest
  end.

(** A line feed or a printable ASCII character (space to tilde). *)
Definition plain_char (c : ascii) : bool :=
  Ascii.eqb c "010"%char
  || (Nat.leb 32 (nat_of_ascii c) && Nat.ltb (nat_of_ascii c) 127).

(** A text of printable ASCII lines separated by line feeds. *)
Fixpoint plain (s : string) : bool :=
  match s with
  | EmptyString => true
  | String c rest => plain_char c && plain rest
  end.

(** The decimal digits. *)
Definition digits : string := "0123456789".

(** The sign [format(n, '+')] starts with. *)
Definition sign_of (n : Z) : string := if n <? 0 then "-" else "+".

(** ** A sample host

    Concrete collaborators on which the card can be run. *)

Module Sample.

(** Formatting of a float: integer-valued doubles below [10^16] print
    as the integer followed by [.0], as [repr] prints them; zeros,
    infinities and NaN as [repr] prints them.  Other doubles are outside
    what this host is run on and print as a placeholder. *)
Definition float_str (x : float) : string :=
  match Prim2SF x with
  | S754_zero s => if s then "-0.0" else "0.0"
  | S754_infinity s => if s then "-inf" else "inf"
  | S754_nan => "nan"
  | S754_finite s m e =>
      let sign := if s then "-" else "" in
      if (0 <=? e) && (Z.pos m * 2 ^ e <? 10 ^ 16)
      then sign ++ str_of_int (Z.pos m * 2 ^ e) ++ ".0"
      else if (e <? 0) && (Z.pos m mod 2 ^ (- e) =? 0)
      then sign ++ str_of_int (Z.pos m / 2 ^ (- e)) ++ ".0"
      else "<float>"
  end.

(** Modelled from the spec: [ImageMagickInterface.escape_chars] is not
    among the sources.  The spec asks that quotes and backslashes be
    escaped for the renderer's annotate syntax: every double quote and
    every backslash gets a backslash in front of it. *)
Fixpoint escape_chars (s : string) : string :=
  match s with
  | EmptyString => EmptyString
  | String c rest =>
      if (Ascii.eqb c "034" || Ascii.eqb c "092")%char%bool
      then String "092" (String c (escape_chars rest))
      else String c (escape_chars rest)
  end.

(** A renderer whose answer changes with every request it has seen:
    the first measurement is 100 high. *)
Definition get_text_dimensions (history : list Event)
           (cmd : ImageMagickCommands) (spacing : Z) (lines : nat)
  : Dimensions :=
  {| width := 800 + Z.of_nat (List.length history);
     height := 100 + Z.of_nat (List.length history) |}.

Definition resize_and_style (blur grayscale : bool)
  : ImageMagickCommands :=
  ([ "-gravity center"; "-resize 3200x1800^"; "-extent 3200x1800" ]
   ++ (if blur then [ "-blur 0x30" ] else [])
   ++ (if grayscale then [ "-colorspace gray" ] else []))%list.

Definition add_overlay_mask (source : Path) : ImageMagickCommands :=
  [ dq ++ source ++ ".mask.png" ++ dq; "-composite" ].

Definition resize_output : ImageMagickCommands :=
  [ "-resize 3200x1800"; "-extent 3200x1800" ].

Definition host : Host :=
  Build_Host
    "/cards/Timeless/card_types/ref"
    (fun p rel => p ++ "/" ++ rel)
    (fun p => p)
    float_str
    escape_chars
    get_text_dimensions
    resize_and_style
    add_overlay_mask
    resize_output.

(** A card with both the season and the episode text hidden. *)
Definition hidden : Kwargs.t :=
  {| Kwargs.source_file := "/source/s01e01.jpg";
     Kwargs.card_file := "/cards/s01e01.jpg";
     Kwargs.title_text := "HELLO";
     Kwargs.season_text := "SEASON 1";
     Kwargs.episode_text := "EPISODE 1";
     Kwargs.hide_season_text := true;
     Kwargs.hide_episode_text := true;
     Kwargs.font_file := TITLE_FONT host;
     Kwargs.font_color := TITLE_COLOR;
     Kwargs.font_size := 1%float;
     Kwargs.font_interline_spacing := 10;
     Kwargs.font_vertical_shift := 5;
     Kwargs.episode_text_color := EPISODE_TEXT_COLOR;
     Kwargs.blur := false;
     Kwargs.grayscale := false |}.

(** A card shifted by 5, with 10 of interline spacing, with a double
    quote in its title. *)
Definition shifted : Kwargs.t :=
  {| Kwargs.source_file := "/source/s01e02.jpg";
     Kwargs.card_file := "/cards/s01e02.jpg";
     Kwargs.title_text := "THE " ++ dq ++ "PILOT" ++ dq;
     Kwargs.season_text := "SEASON 1";
     Kwargs.episode_text := "EPISODE 2";
     Kwargs.hide_season_text := false;
     Kwargs.hide_episode_text := false;
     Kwargs.font_file := TITLE_FONT host;
     Kwargs.font_color := "#EEEEEE";
     Kwargs.font_size := 1.5%float;
     Kwargs.font_interline_spacing := 10;
     Kwargs.font_vertical_shift := 5;
     Kwargs.episode_text_color := EPISODE_TEXT_COLOR;
     Kwargs.blur := false;
     Kwargs.grayscale := false |}.

(** A card whose title ends with a line feed. *)
Definition trailing_newline : Kwargs.t :=
  Kwargs.defaults host "/source/s01e01.jpg" "/cards/s01e01.jpg"
                  ("HELLO" ++ nl) "SEASON 1" "EPISODE 1".

(** The card of the end-to-end scenario of the specification. *)
Definition hello : Kwargs.t :=
  Kwargs.defaults host "/source/s01e01.jpg" "/cards/s01e01.jpg"
                  "HELLO" "SEASON 1" "EPISODE 1".
End Sample.

(** * Properties *)

(** ** The memoised measurement *)

Section Measurement.
Variable h : Host.

Lemma get_title_dimensions_uncached st :
  _title_text_dimensions (self st) = None ->
  get_title_dimensions h st =
    (let d := get_text_dimensions h (events st)
                (title_text_commands h (self st))
                (font_interline_spacing (self st))
                (List.length (splitlines (title_text (self st)))) in
     (d, {| self := set_title_text_dimensions (Some d) (self st);
            events := events st ++ [title_request h (self st)] |})).
Proof.
  intros Hnone. unfold get_title_dimensions, bind, get_self. simpl.
  rewrite Hnone. reflexivity.
Qed.

Lemma get_title_dimensions_cached st d :
  _title_text_dimensions (self st) = Some d ->
  get_title_dimensions h st = (d, st).
Proof.
  intros Hsome. unfold get_title_dimensions, bind, get_self. simpl.
  rewrite Hsome. reflexivity.
Qed.

(** Whatever the state, the call leaves its result in the cache and
    touches no other attribute. *)
Lemma get_title_dimensions_self st :
  self (snd (get_title_dimensions h st)) =
    set_title_text_dimensions (Some (measured h st)) (self st).
Proof.
  unfold measured.
  destruct (_title_text_dimensions (self st)) as [d|] eqn:Hc.
  - rewrite (get_title_dimensions_cached st d Hc). simpl.
    destruct st as [c ev]; destruct c; simpl in *. now rewrite Hc.
  - now rewrite (get_title_dimensions_uncached st Hc).
Qed.

Lemma get_title_dimensions_events st :
  events (snd (get_title_dimensions h st)) =
    (events st ++
     match _title_text_dimensions (self st) with
     | None => [title_request h (self st)]
     | Some _ => []
     end)%list.
Proof.
  destruct (_title_text_dimensions (self st)) as [d|] eqn:Hc.
  - rewrite (get_title_dimensions_cached st d Hc). simpl.
    now rewrite app_nil_r.
  - now rewrite (get_title_dimensions_uncached st Hc).
Qed.

(** A second call finds the cache filled. *)
Lemma get_title_dimensions_again st :
  get_title_dimensions h (snd (get_title_dimensions h st)) =
    (measured h st, snd (get_title_dimensions h st)).
Proof.
  apply get_title_dimensions_cached.
  now rewrite get_title_dimensions_self.
Qed.

End Measurement.

Lemma measurements_app l1 l2 :
  measurements (l1 ++ l2) = (measurements l1 ++ measurements l2)%list.
Proof. apply filter_app. Qed.

(** C4: on a card built from any keyword arguments, whatever was requested
    before, two calls of [get_title_dimensions] in a row make exactly one
    measurement request (the first call makes it, the second adds none and
    changes nothing) and return the same dimensions, the answer to that one
    request. *)
Theorem get_title_dimensions_memoised (h : Host) (kw : Kwargs.t)
        (log : list Event) :
  let st0 := {| self := init h kw; events := log |} in
  let r1 := get_title_dimensions h st0 in
  let r2 := get_title_dimensions h (snd r1) in
  fst r1 = fst r2
  /\ fst r1 = get_text_dimensions h log
                (title_text_commands h (init h kw))
                (font_interline_spacing (init h kw))
                (List.length (splitlines (title_text (init h kw))))
  /\ events (snd r1) = (log ++ [title_request h (init h kw)])%list
  /\ snd r2 = snd r1
  /\ List.length (measurements (events (snd r2))) =
       S (List.length (measurements log)).
Proof.
  intros st0 r1 r2.
  assert (H2 : r2 = (measured h st0, snd r1))
    by apply get_title_dimensions_again.
  assert (He : events (snd r1) = (log ++ [title_request h (init h kw)])%list)
    by (unfold r1; now rewrite get_title_dimensions_events).
  split; [now rewrite H2 |].
  split; [unfold r1; now rewrite get_title_dimensions_uncached |].
  split; [exact He |].
  split; [now rewrite H2 |].
  rewrite H2. cbn [snd].
  rewrite He, measurements_app, length_app. simpl. lia.
Qed.

(** ** The index text layers *)

Section IndexLayers.
Variable h : Host.

Ltac hidden_case :=
  intros Hh; unfold all_hidden in Hh;
  unfold index_text_commands, index_text_infill_commands,
    index_text_gears_commands, bind, get_self, ret;
  cbn [self]; rewrite Hh; reflexivity.

Lemma index_text_commands_hidden st :
  all_hidden (self st) = true -> index_text_commands h st = ([], st).
Proof. hidden_case. Qed.

Lemma index_text_infill_commands_hidden st :
  all_hidden (self st) = true -> index_text_infill_commands h st = ([], st).
Proof. hidden_case. Qed.

Lemma index_text_gears_commands_hidden st :
  all_hidden (self st) = true -> index_text_gears_commands h st = ([], st).
Proof. hidden_case. Qed.

Ltac shown_case st :=
  intros Hh; unfold all_hidden in Hh;
  unfold index_text_commands, index_text_infill_commands,
    index_text_gears_commands, bind, get_self, ret;
  cbn [self]; rewrite Hh;
  pose proof (get_title_dimensions_self h st) as Hself;
  unfold measured in *;
  destruct (get_title_dimensions h st) as [d st'];
  cbn [fst snd] in *; rewrite Hself; reflexivity.

Lemma index_text_commands_shown st :
  all_hidden (self st) = false ->
  index_text_commands h st =
    (index_layer (EPISODE_TEXT_FONT h) (episode_text_color (self st))
                 (self st) (measured h st) (index_text (self st)),
     snd (get_title_dimensions h st)).
Proof. shown_case st. Qed.

Lemma index_text_infill_commands_shown st :
  all_hidden (self st) = false ->
  index_text_infill_commands h st =
    (index_layer (EPISODE_TEXT_FONT_INFILL h) EPISODE_TEXT_COLOR_INFILL
                 (self st) (measured h st) (index_text (self st)),
     snd (get_title_dimensions h st)).
Proof. shown_case st. Qed.

Lemma index_text_gears_commands_shown st :
  all_hidden (self st) = false ->
  index_text_gears_commands h st =
    (index_layer (EPISODE_TEXT_FONT_GEARS h) EPISODE_TEXT_COLOR_GEARS
                 (self st) (measured h st) (index_text (self st)),
     snd (get_title_dimensions h st)).
Proof. shown_case st. Qed.

(** After one measurement the next layer sees the same card, but for
    the filled cache, and the same dimensions. *)
Lemma measured_again st :
  measured h (snd (get_title_dimensions h st)) = measured h st.
Proof.
  unfold measured at 1. now rewrite get_title_dimensions_again.
Qed.

Lemma snd_again st :
  snd (get_title_dimensions h (snd (get_title_dimensions h st))) =
  snd (get_title_dimensions h st).
Proof. now rewrite get_title_dimensions_again. Qed.

End IndexLayers.

(** ** The command handed to the renderer *)

Section Build.
Variable h : Host.

Lemma after_index_self st :
  self (after_index h st) =
    if all_hidden (self st) then self st
    else set_title_text_dimensions (Some (measured h st)) (self st).
Proof.
  unfold after_index. destruct (all_hidden (self st)); [reflexivity|].
  apply get_title_dimensions_self.
Qed.

Lemma all_hidden_after st :
  all_hidden (self (snd (get_title_dimensions h st))) =
  all_hidden (self st).
Proof. now rewrite get_title_dimensions_self. Qed.

Lemma index_text_after st :
  index_text (self (snd (get_title_dimensions h st))) =
  index_text (self st).
Proof. now rewrite get_title_dimensions_self. Qed.

Lemma index_reads_hidden st :
  all_hidden (self st) = true -> index_reads h st = (([], [], []), st).
Proof.
  intros Hh. unfold index_reads.
  rewrite (index_text_commands_hidden h st Hh). cbn [fst snd].
  rewrite (index_text_infill_commands_hidden h st Hh). cbn [fst snd].
  now rewrite (index_text_gears_commands_hidden h st Hh).
Qed.

Lemma index_reads_shown st :
  all_hidden (self st) = false ->
  let c := self st in
  let layer font fill :=
    index_layer font fill c (measured h st) (index_text c) in
  index_reads h st =
    ((layer (EPISODE_TEXT_FONT h) (episode_text_color c),
      layer (EPISODE_TEXT_FONT_INFILL h) EPISODE_TEXT_COLOR_INFILL,
      layer (EPISODE_TEXT_FONT_GEARS h) EPISODE_TEXT_COLOR_GEARS),
     snd (get_title_dimensions h st)).
Proof.
  intros Hh c layer. unfold index_reads.
  rewrite (index_text_commands_shown h st Hh). cbn [fst snd].
  assert (Hh' : all_hidden (self (snd (get_title_dimensions h st))) = false)
    by now rewrite all_hidden_after.
  rewrite (index_text_infill_commands_shown h _ Hh'). cbn [fst snd].
  rewrite snd_again.
  rewrite (index_text_gears_commands_shown h _ Hh'). cbn [fst snd].
  rewrite snd_again, measured_again, index_text_after.
  rewrite get_title_dimensions_self. reflexivity.
Qed.

Lemma create_unfold st :
  create h st =
    (let c := self st in
     let r := index_reads h st in
     let c' := self (snd r) in
     (tt, {| self := c';
             events :=
               events (snd r)
               ++ [Run ([ "convert";
                          (dq ++ path_resolve h (source_file c) ++ dq)
                            %string ]
                        ++ resize_and_style h (blur c) (grayscale c)
                        ++ gradient_commands h
                        ++ fst (fst (fst r)) ++ snd (fst (fst r))
                        ++ snd (fst r)
                        ++ title_text_commands h c'
                        ++ title_text_infill_commands h c'
                        ++ title_text_gears_commands h c'
                        ++ add_overlay_mask h (source_file c')
                        ++ resize_output h
                        ++ [ (dq ++ path_resolve h (output_file c') ++ dq)
                               %string ])
                  ] |}))%list.
Proof.
  unfold create, index_reads, bind, get_self, image_magick_run.
  cbv zeta.
  destruct (index_text_commands h st) as [i1 s1]. cbn [fst snd].
  destruct (index_text_infill_commands h s1) as [i2 s2]. cbn [fst snd].
  destruct (index_text_gears_commands h s2) as [i3 s3]. cbn [fst snd].
  reflexivity.
Qed.

(** [create] reads the index properties, then hands one command to the
    renderer: the fragments of [parts], group after group. *)
Lemma create_run st :
  create h st =
    (tt, {| self := self (after_index h st);
            events := events (after_index h st)
                      ++ [Run (List.concat (map snd (parts h st)))] |}).
Proof.
  rewrite create_unfold. cbv zeta. unfold after_index, parts.
  destruct (all_hidden (self st)) eqn:Hh.
  - rewrite (index_reads_hidden st Hh). reflexivity.
  - rewrite (index_reads_shown st Hh). cbv zeta. cbn [fst snd].
    rewrite get_title_dimensions_self. reflexivity.
Qed.

Lemma labelled_fragments st :
  map snd (labelled h st) = List.concat (map snd (parts h st)).
Proof.
  unfold labelled. induction (parts h st) as [|[p cs] l IH]; [reflexivity|].
  cbn [flat_map map List.concat fst snd].
  rewrite map_app, IH, map_map. cbn [snd]. now rewrite map_id.
Qed.

End Build.

(** ** Both texts hidden *)

(** C1, as stated, fails: on the sample host, building the card
    [Sample.hidden] (season and episode text both hidden) makes no
    measurement request at all. *)
Lemma hidden_build_requests_no_measurement :
  Kwargs.hide_season_text Sample.hidden = true
  /\ Kwargs.hide_episode_text Sample.hidden = true
  /\ ~ (exists cmd spacing lines,
          In (GetTextDimensions cmd spacing lines)
             (events (snd (create Sample.host
                                  (fresh Sample.host Sample.hidden))))).
Proof.
  split; [reflexivity|]. split; [reflexivity|].
  intros (cmd & spacing & lines & Hin).
  vm_compute in Hin. destruct Hin as [Hin|[]]. discriminate Hin.
Qed.

(** C1 (amended): when both the season and the episode text are hidden,
    each of the three index properties returns the empty list and leaves
    the state as it was, and the build requests no title measurement: its
    only request is the one [run], the cache of the title dimensions is
    still empty afterwards, and the index groups of the command are
    empty. *)
Theorem hidden_index_empty_and_unmeasured (h : Host) (kw : Kwargs.t) :
  Kwargs.hide_season_text kw = true ->
  Kwargs.hide_episode_text kw = true ->
  let st0 := fresh h kw in
  index_text_commands h st0 = ([], st0)
  /\ index_text_infill_commands h st0 = ([], st0)
  /\ index_text_gears_commands h st0 = ([], st0)
  /\ events (snd (create h st0))
       = [Run (List.concat (map snd (parts h st0)))]
  /\ measurements (events (snd (create h st0))) = []
  /\ _title_text_dimensions (self (snd (create h st0))) = None
  /\ (forall layer cmds, In (IndexText layer, cmds) (parts h st0) ->
        cmds = []).
Proof.
  intros Hs He st0.
  assert (Hh : all_hidden (self st0) = true)
    by (unfold all_hidden; cbn; now rewrite Hs, He).
  assert (Ha : after_index h st0 = st0)
    by (unfold after_index; now rewrite Hh).
  split; [now apply index_text_commands_hidden|].
  split; [now apply index_text_infill_commands_hidden|].
  split; [now apply index_text_gears_commands_hidden|].
  rewrite create_run, Ha. cbn [snd events self].
  split; [reflexivity|]. split; [reflexivity|]. split; [reflexivity|].
  intros layer cmds Hin. unfold parts in Hin. rewrite Hh in Hin.
  cbn [In] in Hin.
  repeat (destruct Hin as [Hin|Hin];
          [inversion Hin; subst; try reflexivity|]);
    try discriminate; contradiction.
Qed.

Lemma hidden_index_empty_and_unmeasured_witness :
  Kwargs.hide_season_text Sample.hidden = true
  /\ Kwargs.hide_episode_text Sample.hidden = true
  /\ index_text_commands Sample.host (fresh Sample.host Sample.hidden)
    = ([], fresh Sample.host Sample.hidden)
  /\ measurements (events (snd (create Sample.host
                                       (fresh Sample.host Sample.hidden))))
     = [].
Proof.
  pose proof (hidden_index_empty_and_unmeasured
                Sample.host Sample.hidden eq_refl eq_refl) as H.
  cbv zeta in H.
  destruct H as (H1 & _ & _ & _ & H5 & _).
  split; [reflexivity|]. split; [reflexivity|].
  split; [exact H1 | exact H5].
Defined.

(** ** The line count *)

Section LineCount.
Variable h : Host.

Lemma get_title_dimensions_line_count n st :
  get_title_dimensions h (with_line_count n st) =
    (measured h st, with_line_count n (snd (get_title_dimensions h st))).
Proof.
  unfold measured, get_title_dimensions, bind, get_self, put_self, ret,
    image_magick_get_text_dimensions, with_line_count.
  destruct st as [c ev]. cbn [self events].
  destruct c. cbn [_title_text_dimensions set_line_count].
  destruct _title_text_dimensions0; reflexivity.
Qed.

Lemma measured_line_count n st :
  measured h (with_line_count n st) = measured h st.
Proof.
  unfold measured at 1. now rewrite get_title_dimensions_line_count.
Qed.

Lemma parts_line_count n st :
  parts h (with_line_count n st) = parts h st.
Proof.
  unfold parts. rewrite measured_line_count. reflexivity.
Qed.

Lemma after_index_line_count n st :
  events (after_index h (with_line_count n st)) =
  events (after_index h st).
Proof.
  unfold after_index. cbn [with_line_count self].
  change (all_hidden (set_line_count n (self st)))
    with (all_hidden (self st)).
  destruct (all_hidden (self st)); [reflexivity|].
  change {| self := set_line_count n (self st); events := events st |}
    with (with_line_count n st).
  now rewrite get_title_dimensions_line_count.
Qed.

Lemma create_line_count n st :
  events (snd (create h (with_line_count n st))) =
  events (snd (create h st)).
Proof.
  rewrite !create_run. cbn [snd events].
  now rewrite after_index_line_count, parts_line_count.
Qed.

End LineCount.

(** C3, as stated, fails: for the title ["HELLO\n"] the count stored at
    construction is 2, while the one measurement request of
    [get_title_dimensions] carries the line count 1. *)
Lemma stored_line_count_is_not_the_measured_one :
  line_count (init Sample.host Sample.trailing_newline) = 2%nat
  /\ requested_line_counts
       (events (snd (get_title_dimensions
                       Sample.host
                       (fresh Sample.host Sample.trailing_newline))))
     = [1%nat].
Proof. split; vm_compute; reflexivity. Qed.

(** C3 (amended): the stored line count is the number of segments of the
    raw title text between line feeds, set once by the constructor; the
    title measurement does not read it: the line count it passes is the
    number of lines [splitlines] finds in the escaped title text, and
    neither the dimensions returned nor any request of the build changes
    when the stored count is replaced by any other number. *)
Theorem line_count_stored_not_measured (h : Host) (kw : Kwargs.t) :
  line_count (init h kw) = List.length (split_nl (Kwargs.title_text kw))
  /\ requested_line_counts
       (events (snd (get_title_dimensions h (fresh h kw))))
     = [List.length (splitlines (escape_chars h (Kwargs.title_text kw)))]
  /\ (forall n,
        fst (get_title_dimensions h (with_line_count n (fresh h kw)))
          = fst (get_title_dimensions h (fresh h kw))
        /\ events (snd (get_title_dimensions
                          h (with_line_count n (fresh h kw))))
          = events (snd (get_title_dimensions h (fresh h kw)))
        /\ events (snd (create h (with_line_count n (fresh h kw))))
          = events (snd (create h (fresh h kw)))).
Proof.
  split; [reflexivity|]. split; [reflexivity|].
  intros n. rewrite get_title_dimensions_line_count, create_line_count.
  repeat split; reflexivity.
Qed.

(** ** Offsets and spacing *)

Section Offsets.
Variable h : Host.

Lemma index_property_last st (prop : M ImageMagickCommands) :
  all_hidden (self st) = false ->
  In prop (index_properties h) ->
  last (fst (prop st)) "" =
    annotate (y (self st) + height (measured h st) - 10)
             (index_text (self st)).
Proof.
  intros Hh Hin. unfold index_properties in Hin. cbn [In] in Hin.
  destruct Hin as [<-|[<-|[<-|[]]]].
  - now rewrite index_text_commands_shown.
  - now rewrite index_text_infill_commands_shown.
  - now rewrite index_text_gears_commands_shown.
Qed.

Lemma title_property_last c (prop : TimelessTitleCard -> _) :
  In prop (title_properties h) ->
  last (prop c) "" = annotate (y c) (title_text c).
Proof.
  intros Hin. unfold title_properties in Hin. cbn [In] in Hin.
  destruct Hin as [<-|[<-|[<-|[]]]]; reflexivity.
Qed.

Lemma title_property_spacing c (prop : TimelessTitleCard -> _) :
  In prop (title_properties h) ->
  nth 4 (prop c) "" =
    "-interline-spacing " ++ str_of_int (font_interline_spacing c).
Proof.
  intros Hin. unfold title_properties in Hin. cbn [In] in Hin.
  destruct Hin as [<-|[<-|[<-|[]]]]; reflexivity.
Qed.

End Offsets.

(** C5: the vertical offset of the title is 47 plus the vertical shift
    given to the constructor, and it is the offset every title layer
    annotates at; when an index text is drawn, every index layer annotates
    at that title offset plus the measured title height minus 10.  With a
    shift of 5 the title offset is 52, and with a measured height of 100
    the index layers annotate at 142. *)
Theorem title_and_index_offsets (h : Host) (kw : Kwargs.t)
        (log : list Event) :
  let st0 := {| self := init h kw; events := log |} in
  let title_y := 47 + Kwargs.font_vertical_shift kw in
  let title_height := height (fst (get_title_dimensions h st0)) in
  y (init h kw) = title_y
  /\ (forall prop, In prop (title_properties h) ->
        last (prop (init h kw)) "" =
          annotate title_y (title_text (init h kw)))
  /\ (Kwargs.hide_season_text kw && Kwargs.hide_episode_text kw = false ->
      forall prop, In prop (index_properties h) ->
        last (fst (prop st0)) "" =
          annotate (title_y + title_height - 10)
                   (index_text (init h kw)))
  /\ (Kwargs.font_vertical_shift kw = 5 ->
      y (init h kw) = 52
      /\ (title_height = 100 ->
          Kwargs.hide_season_text kw && Kwargs.hide_episode_text kw = false ->
          forall prop, In prop (index_properties h) ->
            last (fst (prop st0)) "" =
              annotate 142 (index_text (init h kw)))).
Proof.
  intros st0 title_y title_height.
  assert (Hidx :
    Kwargs.hide_season_text kw && Kwargs.hide_episode_text kw = false ->
    forall prop, In prop (index_properties h) ->
      last (fst (prop st0)) "" =
        annotate (title_y + title_height - 10) (index_text (init h kw))).
  { intros Hh prop Hin.
    now rewrite (index_property_last h st0 prop Hh Hin). }
  split; [reflexivity|].
  split; [intros prop Hin; now rewrite (title_property_last h _ prop Hin)|].
  split; [exact Hidx|].
  intros H5.
  split; [change (y (init h kw)) with title_y; unfold title_y; lia|].
  intros H100 Hh prop Hin. rewrite (Hidx Hh prop Hin).
  f_equal. unfold title_y. lia.
Qed.

Lemma title_and_index_offsets_witness :
  Kwargs.font_vertical_shift Sample.shifted = 5
  /\ height (fst (get_title_dimensions
                    Sample.host (fresh Sample.host Sample.shifted))) = 100
  /\ y (init Sample.host Sample.shifted) = 52
  /\ last (fst (index_text_commands
                  Sample.host (fresh Sample.host Sample.shifted))) ""
     = annotate 142 "SEASON 1 • EPISODE 2".
Proof.
  pose proof (title_and_index_offsets Sample.host Sample.shifted []) as H.
  cbv zeta in H. destruct H as (_ & _ & _ & H).
  destruct (H eq_refl) as [Hy Hidx].
  split; [reflexivity|]. split; [reflexivity|]. split; [exact Hy|].
  apply (Hidx eq_refl eq_refl (index_text_commands Sample.host)).
  left; reflexivity.
Defined.

(** C7: the interline spacing kept by the card, written in the
    [-interline-spacing] fragment of each of the three title layers and
    passed to the title measurement, is the spacing given to the
    constructor minus 50; a given spacing of 10 yields -40. *)
Theorem title_interline_spacing (h : Host) (kw : Kwargs.t)
        (log : list Event) :
  let c := init h kw in
  let user := Kwargs.font_interline_spacing kw in
  font_interline_spacing c = user - 50
  /\ (forall prop, In prop (title_properties h) ->
        nth 4 (prop c) "" = "-interline-spacing " ++ str_of_int (user - 50))
  /\ events (snd (get_title_dimensions h {| self := c; events := log |}))
     = (log ++ [GetTextDimensions
                  (title_text_commands h c) (user - 50)
                  (List.length (splitlines (title_text c)))])%list
  /\ (user = 10 ->
      font_interline_spacing c = -40
      /\ forall prop, In prop (title_properties h) ->
           nth 4 (prop c) "" = "-interline-spacing -40").
Proof.
  intros c user.
  assert (Hc : font_interline_spacing c = user - 50)
    by (change (font_interline_spacing c) with (-50 + user); lia).
  assert (Hn : forall prop, In prop (title_properties h) ->
             nth 4 (prop c) "" =
               "-interline-spacing " ++ str_of_int (user - 50)).
  { intros prop Hin. rewrite (title_property_spacing h c prop Hin).
    now rewrite Hc. }
  split; [exact Hc|]. split; [exact Hn|]. split.
  - rewrite get_title_dimensions_events. cbn [self events].
    unfold title_request. rewrite Hc. reflexivity.
  - intros H10. split; [lia|].
    intros prop Hin. rewrite (Hn prop Hin), H10. reflexivity.
Qed.

Lemma title_interline_spacing_witness :
  Kwargs.font_interline_spacing Sample.shifted = 10
  /\ font_interline_spacing (init Sample.host Sample.shifted) = -40
  /\ nth 4 (title_text_gears_commands
              Sample.host (init Sample.host Sample.shifted)) ""
     = "-interline-spacing -40".
Proof.
  pose proof (title_interline_spacing Sample.host Sample.shifted []) as H.
  cbv zeta in H. destruct H as (_ & _ & _ & H).
  destruct (H eq_refl) as [Hs Hn].
  split; [reflexivity|]. split; [exact Hs|].
  apply Hn. right; right; left; reflexivity.
Defined.

(** ** The text of the index layers *)

(** C2: whatever the state of the card, the three index layers, read one
    after the other as the build reads them or each on its own, end with an
    annotate fragment that embeds the same text at the same offset: the
    episode text when only the season text is hidden, the season text when
    only the episode text is hidden, and the season text, a space, the
    bullet U+2022, a space and the episode text when both are shown. *)
Theorem index_text_resolution (h : Host) (st : State) :
  let c := self st in
  let offset := y c + height (fst (get_title_dimensions h st)) - 10 in
  let reads := fst (index_reads h st) in
  forall cmds,
    In cmds [fst (fst reads); snd (fst reads); snd reads]
    \/ (exists prop, In prop (index_properties h) /\ cmds = fst (prop st)) ->
    (hide_season_text c = true -> hide_episode_text c = false ->
       last cmds "" = annotate offset (episode_text c))
    /\ (hide_season_text c = false -> hide_episode_text c = true ->
         last cmds "" = annotate offset (season_text c))
    /\ (hide_season_text c = false -> hide_episode_text c = false ->
         last cmds "" =
           annotate offset (season_text c ++ " • " ++ episode_text c)).
Proof.
  intros c offset reads cmds Hcmds.
  assert (Hlast : all_hidden c = false ->
                  last cmds "" = annotate offset (index_text c)).
  { intros Hh. destruct Hcmds as [Hin|(prop & Hin & ->)].
    - unfold reads in Hin. rewrite (index_reads_shown h st Hh) in Hin.
      cbv zeta in Hin. cbn [fst snd In] in Hin.
      destruct Hin as [<-|[<-|[<-|[]]]]; reflexivity.
    - now apply index_property_last. }
  unfold all_hidden, index_text in Hlast.
  repeat split; intros Hs He; rewrite Hs, He in Hlast;
    exact (Hlast eq_refl).
Qed.

Lemma index_text_resolution_witness :
  hide_season_text (init Sample.host Sample.hello) = false
  /\ hide_episode_text (init Sample.host Sample.hello) = false
  /\ last (fst (index_text_gears_commands
                  Sample.host (fresh Sample.host Sample.hello))) ""
     = annotate 137 "SEASON 1 • EPISODE 1".
Proof.
  pose proof (index_text_resolution
                Sample.host (fresh Sample.host Sample.hello)
                (fst (index_text_gears_commands
                        Sample.host (fresh Sample.host Sample.hello))))
    as H.
  cbv zeta in H.
  split; [reflexivity|]. split; [reflexivity|].
  refine (proj2 (proj2 (H _)) eq_refl eq_refl).
  right. exists (index_text_gears_commands Sample.host).
  split; [right; right; left; reflexivity | reflexivity].
Defined.

(** ** The title layers and the escaping *)

(** C8: the card keeps each of the three texts escaped once, by the
    constructor; the three title layers are the same list of fragments but
    for the font and the fill (south gravity, point size 256 times the font
    size, kerning 0, the same interline spacing, the same offset and the
    once-escaped title); the build changes none of the three texts, and the
    title groups of its command are those three layers. *)
Theorem title_layers_share_escaped_text (h : Host) (kw : Kwargs.t)
        (log : list Event) :
  let c := init h kw in
  let st0 := {| self := c; events := log |} in
  (title_text c = escape_chars h (Kwargs.title_text kw)
   /\ season_text c = escape_chars h (Kwargs.season_text kw)
   /\ episode_text c = escape_chars h (Kwargs.episode_text kw))
  /\ (title_text_commands h c =
        title_layer h kw (Kwargs.font_file kw) (Kwargs.font_color kw)
      /\ title_text_infill_commands h c =
           title_layer h kw (TITLE_FONT_INFILL h) TITLE_COLOR_INFILL
      /\ title_text_gears_commands h c =
           title_layer h kw (TITLE_FONT_GEARS h) TITLE_COLOR_GEARS)
  /\ (let c' := self (snd (create h st0)) in
      title_text c' = title_text c
      /\ season_text c' = season_text c
      /\ episode_text c' = episode_text c)
  /\ (In (TitleText Main,
           title_layer h kw (Kwargs.font_file kw) (Kwargs.font_color kw))
         (parts h st0)
      /\ In (TitleText Infill,
              title_layer h kw (TITLE_FONT_INFILL h) TITLE_COLOR_INFILL)
            (parts h st0)
      /\ In (TitleText Gears,
              title_layer h kw (TITLE_FONT_GEARS h) TITLE_COLOR_GEARS)
            (parts h st0)).
Proof.
  intros c st0.
  split; [repeat split|]. split; [repeat split|]. split.
  - cbv zeta. rewrite create_run. cbn [snd self].
    rewrite after_index_self.
    destruct (all_hidden (self st0)); repeat split.
  - unfold parts. cbn [In]. repeat split.
    + do 7 right. left. reflexivity.
    + do 8 right. left. reflexivity.
    + do 9 right. left. reflexivity.
Qed.

(** ** The order of the groups *)

Section Ordering.

Lemma label_cons p cs segs :
  group_labels ((p, cs) :: segs) =
    (repeat p (List.length cs) ++ group_labels segs)%list.
Proof.
  unfold group_labels. cbn [flat_map fst snd]. rewrite map_app, map_map.
  f_equal. cbn [fst]. induction cs as [|x cs IH]; [reflexivity|].
  cbn. now rewrite IH.
Qed.

Lemma label_in q segs :
  In q (group_labels segs) -> In q (map fst segs).
Proof.
  induction segs as [|[p cs] segs IH]; [intros []|].
  rewrite label_cons. intros Hin. apply in_app_or in Hin.
  destruct Hin as [Hin|Hin].
  - apply repeat_spec in Hin. subst. now left.
  - right. now apply IH.
Qed.

Lemma label_sorted segs :
  StronglySorted (fun a b => (rank a < rank b)%nat) (map fst segs) ->
  StronglySorted (fun a b => (rank a <= rank b)%nat) (group_labels segs).
Proof.
  induction segs as [|[p cs] segs IH]; intros Hs.
  - constructor.
  - rewrite label_cons. cbn [map fst] in Hs.
    apply StronglySorted_inv in Hs. destruct Hs as [Hs Hall].
    specialize (IH Hs).
    induction (List.length cs) as [|n IHn]; [exact IH|].
    cbn [repeat app]. constructor; [exact IHn|].
    apply Forall_forall. intros q Hin. apply in_app_or in Hin.
    destruct Hin as [Hin|Hin].
    + apply repeat_spec in Hin. subst. lia.
    + apply label_in in Hin. rewrite Forall_forall in Hall.
      specialize (Hall q Hin). lia.
Qed.

Lemma sorted_nth_error (l : list Part) :
  StronglySorted (fun a b => (rank a <= rank b)%nat) l ->
  forall i j p q,
    (i < j)%nat -> nth_error l i = Some p -> nth_error l j = Some q ->
    (rank p <= rank q)%nat.
Proof.
  induction 1 as [|a l Hs IH Hall]; intros i j p q Hij Hi Hj.
  - destruct i; discriminate.
  - destruct j as [|j]; [lia|]. cbn in Hj.
    destruct i as [|i].
    + cbn in Hi. injection Hi as <-.
      rewrite Forall_forall in Hall. apply Hall.
      eapply nth_error_In; eassumption.
    + cbn in Hi. apply (IH i j); [lia|assumption|assumption].
Qed.

(** In a list of groups with increasing ranks, a fragment of a group of
    lower rank stands before every fragment of a group of higher rank. *)
Lemma lower_rank_first segs :
  StronglySorted (fun a b => (rank a < rank b)%nat) (map fst segs) ->
  forall i j p q,
    nth_error (group_labels segs) i = Some p ->
    nth_error (group_labels segs) j = Some q ->
    (rank p < rank q)%nat -> (i < j)%nat.
Proof.
  intros Hs i j p q Hi Hj Hpq.
  destruct (Nat.lt_trichotomy i j) as [Hlt|[Heq|Hgt]]; [exact Hlt| |].
  - subst. rewrite Hi in Hj. injection Hj as <-. lia.
  - pose proof (sorted_nth_error _ (label_sorted segs Hs) j i q p
                  Hgt Hj Hi). lia.
Qed.

End Ordering.

Lemma runs_app l1 l2 : runs (l1 ++ l2) = (runs l1 ++ runs l2)%list.
Proof. apply flat_map_app. Qed.

Lemma runs_after_index h st :
  runs (events (after_index h st)) = runs (events st).
Proof.
  unfold after_index. destruct (all_hidden (self st)); [reflexivity|].
  rewrite get_title_dimensions_events, runs_app.
  destruct (_title_text_dimensions (self st)); cbn; now rewrite app_nil_r.
Qed.

(** C6: [create] hands exactly one command to the renderer, made of the
    groups of [pipeline] in that order; so every fragment of an index layer
    stands before every fragment of a title layer, these before every
    fragment of the mask overlay, these before every fragment of the output
    resize, and inside the index text and inside the title text the
    fragments of Main stand before those of Infill, and those of Infill
    before those of Gears.  The index groups are what the three index
    properties returned, six fragments each when an index text is drawn
    and none otherwise; the title groups always have eight. *)
Theorem create_command_order (h : Host) (st : State) :
  let fragments := labelled h st in
  let before (p q : Part) :=
    forall i j x y,
      nth_error fragments i = Some (p, x) ->
      nth_error fragments j = Some (q, y) -> (i < j)%nat in
  runs (events (snd (create h st)))
    = (runs (events st) ++ [map snd fragments])%list
  /\ map fst (parts h st) = pipeline
  /\ (forall a b, before (IndexText a) (TitleText b))
  /\ (forall b, before (TitleText b) OverlayMask)
  /\ before OverlayMask ResizeOutput
  /\ (before (IndexText Main) (IndexText Infill)
      /\ before (IndexText Infill) (IndexText Gears))
  /\ (before (TitleText Main) (TitleText Infill)
      /\ before (TitleText Infill) (TitleText Gears))
  /\ (let reads := fst (index_reads h st) in
      In (IndexText Main, fst (fst reads)) (parts h st)
      /\ In (IndexText Infill, snd (fst reads)) (parts h st)
      /\ In (IndexText Gears, snd reads) (parts h st))
  /\ (forall l cmds, In (IndexText l, cmds) (parts h st) ->
        List.length cmds = if all_hidden (self st) then 0%nat else 6%nat)
  /\ (forall l cmds, In (TitleText l, cmds) (parts h st) ->
        List.length cmds = 8%nat).
Proof.
  intros fragments before.
  assert (Hpipe : map fst (parts h st) = pipeline) by reflexivity.
  assert (Hsorted : StronglySorted (fun a b => (rank a < rank b)%nat)
                                   (map fst (parts h st))).
  { rewrite Hpipe. unfold pipeline.
    repeat (constructor; [|repeat (constructor; [cbn; lia|]);
                            constructor]).
    constructor. }
  assert (Hbefore : forall p q, (rank p < rank q)%nat -> before p q).
  { intros p q Hpq i j x y Hi Hj.
    apply (lower_rank_first (parts h st) Hsorted i j p q); [| |exact Hpq].
    - unfold group_labels. fold (labelled h st). fold fragments.
      rewrite nth_error_map, Hi. reflexivity.
    - unfold group_labels. fold (labelled h st). fold fragments.
      rewrite nth_error_map, Hj. reflexivity. }
  split.
  { rewrite create_run. cbn [snd events].
    rewrite runs_app, runs_after_index. unfold fragments.
    rewrite labelled_fragments. reflexivity. }
  split; [exact Hpipe|].
  split; [intros a b; apply Hbefore; destruct a, b; cbn; lia|].
  split; [intros b; apply Hbefore; destruct b; cbn; lia|].
  split; [apply Hbefore; cbn; lia|].
  split; [split; apply Hbefore; cbn; lia|].
  split; [split; apply Hbefore; cbn; lia|].
  split.
  { cbv zeta. unfold parts.
    destruct (all_hidden (self st)) eqn:Hh.
    - rewrite (index_reads_hidden h st Hh). cbn [fst snd In].
      repeat split.
      + do 4 right. left. reflexivity.
      + do 5 right. left. reflexivity.
      + do 6 right. left. reflexivity.
    - rewrite (index_reads_shown h st Hh). cbv zeta. cbn [fst snd In].
      repeat split.
      + do 4 right. left. reflexivity.
      + do 5 right. left. reflexivity.
      + do 6 right. left. reflexivity. }
  split.
  - intros l cmds Hin. unfold parts in Hin. cbn [In] in Hin.
    repeat (destruct Hin as [Hin|Hin];
            [inversion Hin; subst; try (destruct (all_hidden (self st));
                                        reflexivity)|]);
      try discriminate; contradiction.
  - intros l cmds Hin. unfold parts in Hin. cbn [In] in Hin.
    repeat (destruct Hin as [Hin|Hin];
            [inversion Hin; subst; try reflexivity|]);
      try discriminate; contradiction.
Qed.

(** ** [is_custom_font] *)

(** C9: whatever the font and the extras, whatever objects the bound
    names refer to and whether or not the imports under [TYPE_CHECKING]
    were made, [is_custom_font] raises [NameError] for the name
    [FontPreviewTitleCard], which is neither a global of the module nor a
    builtin; it returns no boolean. *)
Theorem is_custom_font_raises_name_error
        (PyObject Font Extras : Type) (value_of : string -> PyObject)
        (call_attr : PyObject -> string -> Font -> PyNames.Result bool)
        (type_checking : bool) (font : Font) (extras : Extras) :
  PyNames.bound "FontPreviewTitleCard"
                (PyNames.module_globals type_checking) = false
  /\ PyNames.bound "FontPreviewTitleCard" PyNames.builtins = false
  /\ PyNames.is_custom_font PyObject Font Extras value_of call_attr
                            type_checking font extras
     = PyNames.Raise (PyNames.NameError "FontPreviewTitleCard")
  /\ (forall b : bool,
        PyNames.is_custom_font PyObject Font Extras value_of call_attr
                               type_checking font extras
        <> PyNames.Return b).
Proof.
  assert (Hg : PyNames.bound "FontPreviewTitleCard"
                             (PyNames.module_globals type_checking) = false)
    by (destruct type_checking; vm_compute; reflexivity).
  assert (Hb : PyNames.bound "FontPreviewTitleCard" PyNames.builtins = false)
    by (vm_compute; reflexivity).
  assert (Hr : PyNames.is_custom_font PyObject Font Extras value_of call_attr
                                      type_checking font extras
               = PyNames.Raise (PyNames.NameError "FontPreviewTitleCard")).
  { unfold PyNames.is_custom_font, PyNames.load_global.
    now rewrite Hg, Hb. }
  repeat split; try assumption.
  intros b. rewrite Hr. discriminate.
Qed.

(** ** [SEASON_TEXT_FORMATTER] *)

Section Decimal.

Lemma str_of_int_head n :
  exists c rest,
    str_of_int n = String c rest
    /\ In c (list_ascii_of_string sign_and_digits).
Proof.
  unfold str_of_int, NilZero.string_of_int.
  destruct (Z.to_int n) as [d|d].
  - unfold NilZero.string_of_uint.
    destruct d; cbn [NilEmpty.string_of_uint];
      eexists; eexists; (split; [reflexivity|]); cbn; tauto.
  - eexists; eexists; (split; [reflexivity|]); cbn; tauto.
Qed.

Lemma contains_head hay c rest :
  contains hay (String c rest) -> In c (list_ascii_of_string hay).
Proof.
  intros (pre & post & ->). induction pre as [|a pre IH].
  - now left.
  - right. exact IH.
Qed.

(** A text with no sign and no digit contains the decimal writing of no
    integer. *)
Lemma digitless_contains_no_int hay n :
  (forall c, In c (list_ascii_of_string sign_and_digits) ->
             ~ In c (list_ascii_of_string hay)) ->
  ~ contains hay (str_of_int n).
Proof.
  intros Hnone Hc.
  destruct (str_of_int_head n) as (c & rest & Heq & Hin).
  rewrite Heq in Hc. apply contains_head in Hc.
  exact (Hnone c Hin Hc).
Qed.

End Decimal.

(** C10: for every episode info, [SEASON_TEXT_FORMATTER] returns
    [SPECIALS] when the season number is 0; otherwise it returns the
    literal text [SEASON {season_number}], braces and placeholder name
    included, which does not contain the decimal writing of the season
    number. *)
Theorem season_text_formatter_literal
        (EpisodeInfo : Type) (season_number : EpisodeInfo -> Z)
        (episode_info : EpisodeInfo) :
  let text := SEASON_TEXT_FORMATTER EpisodeInfo season_number episode_info in
  (season_number episode_info = 0 -> text = "SPECIALS")
  /\ (season_number episode_info <> 0 ->
      text = "SEASON {season_number}"
      /\ ~ contains text (str_of_int (season_number episode_info))).
Proof.
  intros text. unfold text, SEASON_TEXT_FORMATTER. split.
  - intros ->. reflexivity.
  - intros Hne. apply Z.eqb_neq in Hne. rewrite Hne.
    split; [reflexivity|].
    apply digitless_contains_no_int. intros c Hc Hin.
    cbn in Hc, Hin.
    repeat (destruct Hc as [Hc|Hc]; [subst c;
      repeat (destruct Hin as [Hin|Hin]; [discriminate Hin|]);
      exact Hin|]).
    exact Hc.
Qed.

Lemma season_text_formatter_literal_witness :
  SEASON_TEXT_FORMATTER Z (fun n => n) 0 = "SPECIALS"
  /\ SEASON_TEXT_FORMATTER Z (fun n => n) 3 = "SEASON {season_number}"
  /\ ~ contains (SEASON_TEXT_FORMATTER Z (fun n => n) 3) (str_of_int 3).
Proof.
  pose proof (season_text_formatter_literal Z (fun n => n) 0) as H0.
  pose proof (season_text_formatter_literal Z (fun n => n) 3) as H3.
  cbv zeta in H0, H3.
  destruct H0 as [H0 _]. destruct H3 as [_ H3].
  assert (Hne : 3 <> 0) by lia.
  destruct (H3 Hne) as [Ht Hc].
  split; [exact (H0 eq_refl)|]. split; [exact Ht | exact Hc].
Defined.

(** ** The cards of the sample host, run *)

(** The end-to-end scenario: the one command of the build, fragment by
    fragment. *)
Example hello_command :
  runs (events (snd (create Sample.host (fresh Sample.host Sample.hello))))
  = [ [ "convert";
        dq ++ "/source/s01e01.jpg" ++ dq;
        "-gravity center"; "-resize 3200x1800^"; "-extent 3200x1800";
        dq ++ "/cards/Timeless/card_types/ref/overlays/gradient.png" ++ dq;
        "-composite";
        "-font " ++ dq
          ++ "/cards/Timeless/card_types/ref/fonts/Timeless-Main.otf" ++ dq;
        "-gravity south"; "-pointsize 60"; "-kerning 0";
        "-fill " ++ dq ++ "#FFFFFF" ++ dq;
        "-annotate +0+137 " ++ dq ++ "SEASON 1 • EPISODE 1" ++ dq;
        "-font " ++ dq
          ++ "/cards/Timeless/card_types/ref/fonts/Timeless-Infill.otf" ++ dq;
        "-gravity south"; "-pointsize 60"; "-kerning 0";
        "-fill " ++ dq ++ "#000000" ++ dq;
        "-annotate +0+137 " ++ dq ++ "SEASON 1 • EPISODE 1" ++ dq;
        "-font " ++ dq
          ++ "/cards/Timeless/card_types/ref/fonts/Timeless-Gears.otf" ++ dq;
        "-gravity south"; "-pointsize 60"; "-kerning 0";
        "-fill " ++ dq ++ "#000000" ++ dq;
        "-annotate +0+137 " ++ dq ++ "SEASON 1 • EPISODE 1" ++ dq;
        "-font " ++ dq
          ++ "/cards/Timeless/card_types/ref/fonts/Timeless-Main.otf" ++ dq;
        "-gravity south"; "-pointsize 256.0"; "-kerning 0";
        "-interline-spacing -50"; "-background transparent";
        "-fill " ++ dq ++ "#FFFFFF" ++ dq;
        "-annotate +0+47 " ++ dq ++ "HELLO" ++ dq;
        "-font " ++ dq
          ++ "/cards/Timeless/card_types/ref/fonts/Timeless-Infill.otf" ++ dq;
        "-gravity south"; "-pointsize 256.0"; "-kerning 0";
        "-interline-spacing -50"; "-background transparent";
        "-fill " ++ dq ++ "#000000" ++ dq;
        "-annotate +0+47 " ++ dq ++ "HELLO" ++ dq;
        "-font " ++ dq
          ++ "/cards/Timeless/card_types/ref/fonts/Timeless-Gears.otf" ++ dq;
        "-gravity south"; "-pointsize 256.0"; "-kerning 0";
        "-interline-spacing -50"; "-background transparent";
        "-fill " ++ dq ++ "#000000" ++ dq;
        "-annotate +0+47 " ++ dq ++ "HELLO" ++ dq;
        dq ++ "/source/s01e01.jpg.mask.png" ++ dq; "-composite";
        "-resize 3200x1800"; "-extent 3200x1800";
        dq ++ "/cards/s01e01.jpg" ++ dq ] ].
Proof. vm_compute. reflexivity. Qed.

(** The build of that card measures the title once, before the [run]. *)
Example hello_requests :
  map (fun e => match e with
                | GetTextDimensions _ spacing lines => Some (spacing, lines)
                | Run _ => None
                end)
      (events (snd (create Sample.host (fresh Sample.host Sample.hello))))
  = [ Some (-50, 1%nat); None ].
Proof. vm_compute. reflexivity. Qed.

(** A double quote in the title is escaped once in each title layer. *)
Example shifted_title_annotations :
  map (fun prop => last (prop (init Sample.host Sample.shifted)) "")
      (title_properties Sample.host)
  = repeat ("-annotate +0+52 " ++ dq
              ++ "THE " ++ bs ++ dq ++ "PILOT" ++ bs ++ dq ++ dq) 3.
Proof. vm_compute. reflexivity. Qed.

(** [split] on a line feed and [splitlines] disagree on an empty text, on
    a trailing line feed and on a carriage return. *)
Example line_counts :
  map (fun s => (List.length (split_nl s), List.length (splitlines s)))
      [ ""; "A"; "A" ++ nl ++ "B"; "A" ++ nl;
        "A" ++ String "013" "B"; "A" ++ String "013" nl ++ "B" ]
  = [ (1, 0); (1, 1); (2, 2); (2, 1); (1, 2); (2, 2) ]%nat.
Proof. vm_compute. reflexivity. Qed.

(** The sample renderer would answer a second measurement differently;
    the second call of [get_title_dimensions] does not ask it. *)
Example second_call_reads_the_cache :
  let r1 := get_title_dimensions Sample.host
                                 (fresh Sample.host Sample.hello) in
  let r2 := get_title_dimensions Sample.host (snd r1) in
  fst r1 = {| width := 800; height := 100 |}
  /\ fst r2 = {| width := 800; height := 100 |}
  /\ List.length (events (snd r2)) = 1%nat
  /\ Sample.get_text_dimensions
       (events (snd r1))
       (title_text_commands Sample.host (self (snd r1))) (-50) 1
     = {| width := 801; height := 101 |}.
Proof. vm_compute. repeat split; reflexivity. Qed.

(** * Further properties of the module *)

(** ** Season titles *)

(** X1: [is_custom_season_titles] answers false, that is generic season
    titles, exactly when the episode map was not customised and the
    episode text format is the class default [EPISODE {episode_number}];
    any other format, and any customised map, make the titles custom. *)
Theorem generic_season_titles_iff (custom_episode_map : bool)
        (episode_text_format : string) :
  is_custom_season_titles custom_episode_map episode_text_format = false
  <-> (custom_episode_map = false
       /\ episode_text_format = "EPISODE {episode_number}").
Proof.
  unfold is_custom_season_titles, EPISODE_TEXT_FORMAT.
  rewrite orb_false_iff, negb_false_iff, String.eqb_eq. reflexivity.
Qed.

(** ** The requests of a build *)

Section Requests.
Variable h : Host.

Lemma after_index_events st :
  events (after_index h st) = (events st ++ build_measurement h st)%list.
Proof.
  unfold after_index, build_measurement.
  destruct (all_hidden (self st)); [now rewrite app_nil_r|].
  apply get_title_dimensions_events.
Qed.

Lemma create_command_parts st :
  create_command h st = List.concat (map snd (parts h st)).
Proof.
  unfold create_command. rewrite create_run. cbn [snd events].
  rewrite runs_app. cbn [runs flat_map app]. apply last_last.
Qed.

Lemma parts_after_index st :
  parts h (after_index h st) = parts h st.
Proof.
  unfold parts. rewrite after_index_self.
  unfold after_index.
  destruct (all_hidden (self st)) eqn:Hh.
  - rewrite Hh. reflexivity.
  - rewrite measured_again.
    change (all_hidden (set_title_text_dimensions
                          (Some (measured h st)) (self st)))
      with (all_hidden (self st)).
    rewrite Hh. reflexivity.
Qed.

End Requests.

(** X2: from any state, a build appends to the requests made so far at
    most one title measurement, followed by exactly one [run], which is
    its last request.  The measurement is made only when an index text is
    drawn and no title dimensions are cached: the three index layers share
    it.  On a card just constructed that is one measurement when a text is
    shown and none when both are hidden. *)
Theorem create_requests (h : Host) (st : State) (kw : Kwargs.t) :
  events (snd (create h st)) =
    (events st ++ build_measurement h st ++ [Run (create_command h st)])%list
  /\ (List.length (build_measurement h st) <= 1)%nat
  /\ build_measurement h (fresh h kw) =
       if Kwargs.hide_season_text kw && Kwargs.hide_episode_text kw
       then [] else [title_request h (init h kw)].
Proof.
  split; [|split].
  - rewrite create_command_parts, create_run. cbn [snd events].
    now rewrite after_index_events, <- app_assoc.
  - unfold build_measurement.
    destruct (all_hidden (self st)); [cbn; lia|].
    destruct (_title_text_dimensions (self st)); cbn; lia.
  - reflexivity.
Qed.

(** X3: a build can be repeated.  Building again from the state a build
    left hands the same command to the renderer, makes no measurement and
    leaves the card as it was. *)
Theorem create_twice (h : Host) (st : State) :
  let s1 := snd (create h st) in
  let s2 := snd (create h s1) in
  create_command h s1 = create_command h st
  /\ events s2 = (events s1 ++ [Run (create_command h st)])%list
  /\ self s2 = self s1.
Proof.
  intros s1 s2.
  assert (Hs1 : s1 = {| self := self (after_index h st);
                        events := events (after_index h st)
                                  ++ [Run (create_command h st)] |}).
  { unfold s1. rewrite create_run, create_command_parts. reflexivity. }
  assert (Hself : self s1 =
                  if all_hidden (self st) then self st
                  else set_title_text_dimensions
                         (Some (measured h st)) (self st)).
  { rewrite Hs1. cbn [self]. apply after_index_self. }
  assert (Hafter : after_index h s1 = s1
                   /\ parts h s1 = parts h st).
  { unfold after_index, parts. rewrite Hself.
    destruct (all_hidden (self st)) eqn:Hh.
    - rewrite Hh. split; reflexivity.
    - assert (Hc : get_title_dimensions h s1 = (measured h st, s1)).
      { apply get_title_dimensions_cached. now rewrite Hself. }
      change (all_hidden (set_title_text_dimensions
                            (Some (measured h st)) (self st)))
        with (all_hidden (self st)).
      assert (Hm : measured h s1 = measured h st)
        by (unfold measured at 1; now rewrite Hc).
      rewrite Hh, Hc, Hm. split; reflexivity. }
  destruct Hafter as [Hafter Hparts].
  assert (Hcmd : create_command h s1 = create_command h st)
    by now rewrite !create_command_parts, Hparts.
  split; [exact Hcmd|].
  unfold s2. rewrite create_run, Hafter. cbn [snd events self].
  rewrite <- create_command_parts, Hcmd. split; reflexivity.
Qed.

(** X4: a build changes no attribute of the card but the cached title
    dimensions: whatever is then stored in that cache, the card is the
    one the build started from with the same value stored.  When both
    texts are hidden, or when the dimensions were cached already, the card
    is left exactly as it was. *)
Theorem create_keeps_the_card (h : Host) (st : State) :
  (forall d,
     set_title_text_dimensions d (self (snd (create h st))) =
     set_title_text_dimensions d (self st))
  /\ (all_hidden (self st) = true
      \/ _title_text_dimensions (self st) <> None ->
      self (snd (create h st)) = self st).
Proof.
  rewrite create_run. cbn [snd self]. rewrite after_index_self. split.
  - intros d. destruct (all_hidden (self st)); reflexivity.
  - intros [Hh|Hc].
    + now rewrite Hh.
    + destruct (all_hidden (self st)); [reflexivity|].
      destruct (_title_text_dimensions (self st)) as [d|] eqn:Hd;
        [|contradiction].
      assert (Hm : measured h st = d).
      { unfold measured.
        now rewrite (get_title_dimensions_cached h st d Hd). }
      rewrite Hm. destruct st as [c ev]; destruct c; cbn in *.
      now rewrite Hd.
Qed.

Lemma create_keeps_the_card_witness :
  all_hidden (self (fresh Sample.host Sample.hidden)) = true
  /\ self (snd (create Sample.host (fresh Sample.host Sample.hidden)))
     = self (fresh Sample.host Sample.hidden).
Proof.
  split; [reflexivity|].
  apply (proj2 (create_keeps_the_card
                  Sample.host (fresh Sample.host Sample.hidden))).
  left. reflexivity.
Defined.

(** ** The shape of the command *)

Lemma concat_last_singleton (ls : list ImageMagickCommands) (x : string) :
  List.concat (ls ++ [[x]]) = (List.concat ls ++ [x])%list.
Proof. rewrite concat_app. reflexivity. Qed.

(** X5: whatever its state, a build hands the renderer a command that
    starts with [convert] and the quoted resolved source path and ends with
    the quoted resolved output path.  Apart from what the parent class
    contributes, the command has 29 fragments when both texts are hidden
    and 47 when an index text is drawn. *)
Theorem create_command_shape (h : Host) (st : State) :
  let c := self st in
  let cmd := create_command h st in
  nth 0 cmd "" = "convert"
  /\ nth 1 cmd "" = dq ++ path_resolve h (source_file c) ++ dq
  /\ last cmd "" = dq ++ path_resolve h (output_file c) ++ dq
  /\ List.length cmd =
       ((if all_hidden c then 29 else 47)
        + List.length (resize_and_style h (blur c) (grayscale c))
        + List.length (add_overlay_mask h (source_file c))
        + List.length (resize_output h))%nat.
Proof.
  intros c cmd. unfold cmd. rewrite create_command_parts.
  split; [reflexivity|]. split; [reflexivity|]. split.
  - change (map snd (parts h st))
      with (removelast (map snd (parts h st))
            ++ [[(dq ++ path_resolve h (output_file c) ++ dq)%string]])%list.
    rewrite concat_last_singleton. apply last_last.
  - unfold parts. fold c.
    cbn [map snd List.concat].
    repeat rewrite length_app.
    destruct (all_hidden c); cbn [List.length title_text_commands
      title_text_infill_commands title_text_gears_commands
      gradient_commands index_layer]; lia.
Qed.

(** ** The two line counts *)

Section LineCounts.

Lemma split_nl_aux_length s :
  forall cur, List.length (split_nl_aux cur s) = S (count_lf s).
Proof.
  induction s as [|c rest IH]; intros cur; [reflexivity|].
  cbn [split_nl_aux count_lf].
  destruct (Ascii.eqb c "010"); cbn [List.length]; now rewrite IH.
Qed.

(** A printable character never closes a line. *)
Lemma splitlines_aux_printable c :
  plain_char c = true -> Ascii.eqb c "010" = false ->
  forall started cur rest,
    splitlines_aux started cur (String c rest) =
    splitlines_aux true (cur ++ String c EmptyString) rest.
Proof.
  intros Hp Hn started cur rest.
  destruct c as [[] [] [] [] [] [] [] []];
    vm_compute in Hp; vm_compute in Hn; try discriminate; reflexivity.
Qed.

Lemma splitlines_aux_length s :
  plain s = true ->
  forall started cur,
    List.length (splitlines_aux started cur s) =
    (count_lf s + if open_line started s then 1 else 0)%nat.
Proof.
  induction s as [|c rest IH]; intros Hp started cur.
  - cbn. now destruct started.
  - cbn [plain] in Hp. apply andb_true_iff in Hp. destruct Hp as [Hc Hr].
    cbn [count_lf open_line].
    destruct (Ascii.eqb c "010") eqn:Hlf.
    + apply Ascii.eqb_eq in Hlf. subst c.
      change (splitlines_aux started cur (String "010" rest))
        with (cur :: splitlines_aux false EmptyString rest).
      cbn [List.length]. now rewrite (IH Hr).
    + rewrite (splitlines_aux_printable c Hc Hlf). now rewrite (IH Hr).
Qed.

End LineCounts.

(** X6: the line count stored by the constructor is one more than the
    number of line feeds of the raw title; it is never 0, not even for an
    empty title. *)
Theorem stored_line_count_counts_line_feeds (h : Host) (kw : Kwargs.t) :
  line_count (init h kw) = S (count_lf (Kwargs.title_text kw))
  /\ (1 <= line_count (init h kw))%nat.
Proof.
  assert (H : line_count (init h kw) = S (count_lf (Kwargs.title_text kw)))
    by apply split_nl_aux_length.
  split; [exact H | lia].
Qed.

(** X7: for a title made of printable ASCII characters and line feeds
    that the escaping leaves as it is, the line count passed to the title
    measurement is the stored line count when the title ends inside a
    line, and one less when the title is empty or ends with a line
    feed. *)
Theorem line_counts_on_plain_titles (h : Host) (kw : Kwargs.t) :
  plain (Kwargs.title_text kw) = true ->
  escape_chars h (Kwargs.title_text kw) = Kwargs.title_text kw ->
  requested_line_counts
    (events (snd (get_title_dimensions h (fresh h kw))))
  = [ if open_line false (Kwargs.title_text kw)
      then line_count (init h kw)
      else Nat.pred (line_count (init h kw)) ].
Proof.
  intros Hp He.
  assert (Hs : line_count (init h kw) = S (count_lf (Kwargs.title_text kw)))
    by apply split_nl_aux_length.
  rewrite Hs.
  change (requested_line_counts
            (events (snd (get_title_dimensions h (fresh h kw)))))
    with [List.length (splitlines (escape_chars h (Kwargs.title_text kw)))].
  rewrite He. unfold splitlines. rewrite (splitlines_aux_length _ Hp).
  destruct (open_line false (Kwargs.title_text kw)); f_equal; cbn; lia.
Qed.

Lemma line_counts_on_plain_titles_witness :
  plain (Kwargs.title_text Sample.hello) = true
  /\ escape_chars Sample.host (Kwargs.title_text Sample.hello)
     = Kwargs.title_text Sample.hello
  /\ requested_line_counts
       (events (snd (get_title_dimensions
                       Sample.host (fresh Sample.host Sample.hello))))
     = [1%nat].
Proof.
  split; [reflexivity|]. split; [reflexivity|].
  exact (line_counts_on_plain_titles Sample.host Sample.hello
                                     eq_refl eq_refl).
Defined.

(** ** The sign of an offset *)

Section Signs.

Lemma string_of_uint_digits d :
  forall c, In c (list_ascii_of_string (NilEmpty.string_of_uint d)) ->
            In c (list_ascii_of_string digits).
Proof.
  induction d; intros c Hin; cbn [NilEmpty.string_of_uint] in Hin;
    cbn [list_ascii_of_string In] in Hin;
    try contradiction;
    (destruct Hin as [<-|Hin]; [cbn; tauto | now apply IHd]).
Qed.

Lemma str_of_int_abs_digits n :
  str_of_int (Z.abs n) <> ""
  /\ forall c, In c (list_ascii_of_string (str_of_int (Z.abs n))) ->
               In c (list_ascii_of_string digits).
Proof.
  assert (Hpos : forall p,
            str_of_int (Z.pos p) <> ""
            /\ forall c, In c (list_ascii_of_string (str_of_int (Z.pos p))) ->
                         In c (list_ascii_of_string digits)).
  { intros p. unfold str_of_int, NilZero.string_of_int.
    cbn [Z.to_int]. unfold NilZero.string_of_uint.
    destruct (Pos.to_uint p) eqn:Hu;
      (split; [cbn; discriminate|]);
      try (rewrite <- Hu; apply string_of_uint_digits);
      intros c Hin; cbn in *; tauto. }
  destruct n as [|p|p]; cbn [Z.abs]; [|apply Hpos|apply Hpos].
  split; [discriminate|]. intros c Hin. cbn in *. tauto.
Qed.

Lemma format_plus_sign n :
  format_plus n = sign_of n ++ str_of_int (Z.abs n).
Proof.
  unfold format_plus, sign_of. destruct n as [|p|p]; reflexivity.
Qed.

End Signs.

(** X8: the offset of every title layer is written with an explicit
    sign: [+0+N] when 47 plus the vertical shift is not negative and
    [+0-N] when the shift is below -47, where [N] is the non-empty decimal
    writing, digits only, of the absolute value. *)
Theorem title_offset_is_signed (h : Host) (kw : Kwargs.t)
        (prop : TimelessTitleCard -> ImageMagickCommands) :
  In prop (title_properties h) ->
  let offset := 47 + Kwargs.font_vertical_shift kw in
  let size := str_of_int (Z.abs offset) in
  last (prop (init h kw)) "" =
    "-annotate +0" ++ (if offset <? 0 then "-" else "+") ++ size
      ++ " " ++ dq ++ escape_chars h (Kwargs.title_text kw) ++ dq
  /\ size <> ""
  /\ (forall c, In c (list_ascii_of_string size) ->
                In c (list_ascii_of_string digits)).
Proof.
  intros Hin offset size.
  destruct (str_of_int_abs_digits offset) as [Hne Hdig].
  split; [|split; assumption].
  rewrite (title_property_last h (init h kw) prop Hin).
  unfold annotate. change (y (init h kw)) with offset.
  rewrite format_plus_sign. unfold sign_of.
  destruct (offset <? 0); reflexivity.
Qed.

Lemma title_offset_is_signed_witness :
  last (title_text_commands Sample.host (init Sample.host Sample.hello)) ""
  = "-annotate +0+47 " ++ dq ++ "HELLO" ++ dq.
Proof.
  refine (proj1 (title_offset_is_signed
                   Sample.host Sample.hello
                   (title_text_commands Sample.host) _)).
  left. reflexivity.
Defined.

(** ** The style of the index layers *)

(** X9: on a card just constructed that draws an index text, the index
    layers never use the font, colour, size or spacing chosen for the
    title: before their annotate fragment they are the host's Main, Infill
    and Gears fonts, south gravity, point size 60, kerning 0, and as fill
    the episode text colour for Main and black for Infill and Gears. *)
Theorem index_layers_fixed_style (h : Host) (kw : Kwargs.t)
        (log : list Event) :
  Kwargs.hide_season_text kw && Kwargs.hide_episode_text kw = false ->
  let reads := fst (index_reads h {| self := init h kw; events := log |}) in
  let style font fill :=
    [ "-font " ++ dq ++ font ++ dq; "-gravity south"; "-pointsize 60";
      "-kerning 0"; "-fill " ++ dq ++ fill ++ dq ] in
  removelast (fst (fst reads)) =
    style (path_div h (REF_DIRECTORY h) "fonts/Timeless-Main.otf")
          (Kwargs.episode_text_color kw)
  /\ removelast (snd (fst reads)) =
       style (path_div h (REF_DIRECTORY h) "fonts/Timeless-Infill.otf")
             "#000000"
  /\ removelast (snd reads) =
       style (path_div h (REF_DIRECTORY h) "fonts/Timeless-Gears.otf")
             "#000000".
Proof.
  intros Hh reads style. unfold reads.
  rewrite (index_reads_shown h {| self := init h kw; events := log |} Hh).
  cbv zeta. cbn [fst snd].
  repeat split; reflexivity.
Qed.

Lemma index_layers_fixed_style_witness :
  Kwargs.hide_season_text Sample.shifted
    && Kwargs.hide_episode_text Sample.shifted = false
  /\ removelast (fst (index_text_commands
                        Sample.host (fresh Sample.host Sample.shifted)))
     = [ "-font " ++ dq
           ++ "/cards/Timeless/card_types/ref/fonts/Timeless-Main.otf" ++ dq;
         "-gravity south"; "-pointsize 60"; "-kerning 0";
         "-fill " ++ dq ++ "#FFFFFF" ++ dq ].
Proof.
  split; [reflexivity|].
  exact (proj1 (index_layers_fixed_style
                  Sample.host Sample.shifted [] eq_refl)).
Defined.

(** ** Reading an index property without a request *)

(** X10: when the title dimensions are already cached, reading any of the
    three index properties makes no request and changes nothing: the
    layer is laid out from the cached height, whatever the renderer would
    answer now. *)
Theorem index_property_from_cache (h : Host) (st : State) (d : Dimensions)
        (prop : M ImageMagickCommands) :
  _title_text_dimensions (self st) = Some d ->
  In prop (index_properties h) ->
  snd (prop st) = st
  /\ (all_hidden (self st) = false ->
      last (fst (prop st)) "" =
        annotate (y (self st) + height d - 10) (index_text (self st))).
Proof.
  intros Hd Hin.
  assert (Hg : get_title_dimensions h st = (d, st))
    by now apply get_title_dimensions_cached.
  assert (Hm : measured h st = d) by (unfold measured; now rewrite Hg).
  split.
  - unfold index_properties in Hin. cbn [In] in Hin.
    destruct (all_hidden (self st)) eqn:Hh.
    + destruct Hin as [<-|[<-|[<-|[]]]].
      * now rewrite index_text_commands_hidden.
      * now rewrite index_text_infill_commands_hidden.
      * now rewrite index_text_gears_commands_hidden.
    + destruct Hin as [<-|[<-|[<-|[]]]].
      * rewrite index_text_commands_shown by exact Hh. now rewrite Hg.
      * rewrite index_text_infill_commands_shown by exact Hh.
        now rewrite Hg.
      * rewrite index_text_gears_commands_shown by exact Hh.
        now rewrite Hg.
  - intros Hh. rewrite (index_property_last h st prop Hh Hin).
    now rewrite Hm.
Qed.

Lemma index_property_from_cache_witness :
  let st := snd (get_title_dimensions
                   Sample.host (fresh Sample.host Sample.hello)) in
  _title_text_dimensions (self st) = Some {| width := 800; height := 100 |}
  /\ snd (index_text_infill_commands Sample.host st) = st
  /\ last (fst (index_text_infill_commands Sample.host st)) ""
     = annotate 137 "SEASON 1 • EPISODE 1".
Proof.
  cbv zeta.
  pose proof (index_property_from_cache
                Sample.host
                (snd (get_title_dimensions
                        Sample.host (fresh Sample.host Sample.hello)))
                {| width := 800; height := 100 |}
                (index_text_infill_commands Sample.host)
                eq_refl) as H.
  destruct H as [Hs Hl]; [right; left; reflexivity|].
  split; [reflexivity|]. split; [exact Hs|exact (Hl eq_refl)].
Defined.

(** ** The gradient overlay *)




(** A shift below -47 puts a minus sign in the geometry of the title. *)
Example negative_title_offset :
  format_plus (47 + -50) = "-3" /\ format_plus (47 + -47) = "+0".
Proof. split; reflexivity. Qed.
